(** * tanjun.injector: the dependency-injection resolver

    A shallow embedding of [src/tanjun/injector.py]: the [Undefined]
    sentinel, the [Injected] marker, the registry [InjectorClient] with its
    getter factories, the signature resolver and the [InjectableCheck]
    wrapper.

    Python objects are modelled by what the module observes of them: their
    identity, their runtime class and their truth value.  Exceptions are an
    explicit result type.  The dict object behind
    [InjectorClient._component_mapping] lives in a heap of dict objects, so
    that "the same mapping object" is a statement about references.  The
    module [tanjun.traits] with its classes [Client] and [Component] is
    declared elsewhere and is a parameter of the development.  The module
    imports the name [traits] only [if typing.TYPE_CHECKING], which is false
    at run time, so that reading the name raises [NameError].

    Class objects are plain classes: their metaclass is [type], and
    [issubclass] and [isinstance] on them are membership in the method
    resolution order.  Tuples, unions and objects whose class defines
    [__instancecheck__] or [__subclasscheck__] are not among the values. *)

From stdpp Require Import gmap strings list.

(** ** Classes and values *)

(** A class object: its qualified name and the names of its proper
    ancestors ([__mro__] without the class itself). *)
Record PyType := mkType { ty_name : string; ty_bases : list string }.

Global Instance PyType_eq_dec : EqDecision PyType.
Proof. solve_decision. Defined.

Global Instance PyType_countable : Countable PyType.
Proof.
  apply (inj_countable' (λ t, (ty_name t, ty_bases t))
                        (λ p, mkType p.1 p.2)).
  by intros [].
Defined.

Definition mro (t : PyType) : list string := ty_name t :: ty_bases t.

(** [issubclass(c, d)]: [d] occurs in the method resolution order of [c]. *)
Definition issubclass (c d : PyType) : bool :=
  bool_decide (ty_name d ∈ mro c).

(** An instance of a user class (a client, a component, a registered value,
    a callable): identity, runtime class, and the result of [bool(obj)]. *)
Record PyObj := mkObj { oid : nat; otype : PyType; otruthy : bool }.

Global Instance PyObj_eq_dec : EqDecision PyObj.
Proof. solve_decision. Defined.

Global Instance PyObj_countable : Countable PyObj.
Proof.
  apply (inj_countable' (λ o, (oid o, otype o, otruthy o))
                        (λ p, mkObj p.1.1 p.1.2 p.2)).
  by intros [].
Defined.

(** [UndefinedOr[T]]: the [UNDEFINED] singleton or a value of [T]. *)
Inductive UndefinedOr (A : Type) : Type :=
| UNDEFINED
| Defined (a : A).
Global Arguments UNDEFINED {A}.
Global Arguments Defined {A} a.

Global Instance UndefinedOr_eq_dec `{EqDecision A} : EqDecision (UndefinedOr A).
Proof. solve_decision. Defined.

(** The values that flow through the module. *)
Inductive PyVal :=
| VUndefined                                   (* the UNDEFINED singleton *)
| VNone
| VBool (b : bool)
| VStr (s : string)
| VClass (t : PyType)                          (* a class object *)
| VObj (o : PyObj)
| VInjected (callback : UndefinedOr PyObj) (type : UndefinedOr PyType)
| VAwaitable (v : PyVal).                      (* awaiting it yields [v] *)

Global Instance PyVal_eq_dec : EqDecision PyVal.
Proof. solve_decision. Defined.

Inductive PyExc :=
| TypeError
| AttributeError
| AssertionError
| NameError
| ValueError (msg : string)
| RuntimeError (msg : string).

Global Instance PyExc_eq_dec : EqDecision PyExc.
Proof. solve_decision. Defined.

Inductive Result (A : Type) : Type :=
| Ok (a : A)
| Raise (e : PyExc).
Global Arguments Ok {A} a.
Global Arguments Raise {A} e.

(** Sequencing: an exception aborts what follows. *)
Global Instance Result_ret : MRet Result := λ A a, Ok a.
Global Instance Result_bind : MBind Result := λ A B k r,
  match r with
  | Ok a => k a
  | Raise e => Raise e
  end.

(** Builtin classes the module meets. *)
Definition builtins_object : PyType := mkType "object" [].
Definition builtins_type : PyType := mkType "type" ["object"].
Definition builtins_NoneType : PyType := mkType "NoneType" ["object"].
Definition builtins_bool : PyType := mkType "bool" ["int"; "object"].
Definition builtins_str : PyType := mkType "str" ["object"].
Definition types_CoroutineType : PyType := mkType "coroutine" ["object"].
Definition inspect_empty : PyType := mkType "inspect._empty" ["object"].
Definition Undefined_cls : PyType := mkType "tanjun.injector.Undefined" ["object"].
Definition Injected_cls : PyType :=
  mkType "tanjun.injector.Injected" ["typing.Generic"; "object"].

(** [type(v)]. *)
Definition type_of (v : PyVal) : PyType :=
  match v with
  | VUndefined => Undefined_cls
  | VNone => builtins_NoneType
  | VBool _ => builtins_bool
  | VStr _ => builtins_str
  | VClass _ => builtins_type
  | VObj o => otype o
  | VInjected _ _ => Injected_cls
  | VAwaitable _ => types_CoroutineType
  end.

(** [bool(v)].  [Undefined] and [Injected] define neither [__bool__] nor
    [__len__], so their instances are true. *)
Definition truthy (v : PyVal) : bool :=
  match v with
  | VUndefined => true
  | VNone => false
  | VBool b => b
  | VStr s => negb (bool_decide (s = ""))
  | VClass _ => true
  | VObj o => otruthy o
  | VInjected _ _ => true
  | VAwaitable _ => true
  end.

(** [isinstance(obj, classinfo)] on the values above: the second argument
    must be a class, and the test is the one of [type.__instancecheck__]. *)
Definition isinstance (obj classinfo : PyVal) : Result bool :=
  match classinfo with
  | VClass c => Ok (issubclass (type_of obj) c)
  | _ => Raise TypeError
  end.

Definition undefined_or_val {A} (f : A → PyVal) (u : UndefinedOr A) : PyVal :=
  match u with
  | UNDEFINED => VUndefined
  | Defined a => f a
  end.

(** ** [class Injected] *)

(** [Injected.__init__], with keyword-only [callback] and [type], both
    [UNDEFINED] by default. *)
Definition Injected (callback : UndefinedOr PyObj) (type : UndefinedOr PyType)
  : Result PyVal :=
  match callback, type with
  | UNDEFINED, UNDEFINED =>
      Raise (ValueError "Must specify one of `callback` or `type`")
  | Defined _, Defined _ =>
      Raise (ValueError "Only one of `callback` or `type` can be specified")
  | _, _ => Ok (VInjected callback type)
  end.

(** Attribute reads [v.callback] and [v.type]: only markers have them. *)
Definition attr_callback (v : PyVal) : Result (UndefinedOr PyObj) :=
  match v with
  | VInjected cb _ => Ok cb
  | _ => Raise AttributeError
  end.

Definition attr_type (v : PyVal) : Result (UndefinedOr PyType) :=
  match v with
  | VInjected _ t => Ok t
  | _ => Raise AttributeError
  end.

(** ** Host objects: [traits.Client] and [traits.Context] *)

(** The host client as the registry reads it: the object itself and its
    component set, listed in the order in which the set iterates. *)
Record Client := mkClient { client_obj : PyObj; components : list PyObj }.

Record Context := mkContext { client : PyObj; component : option PyObj }.

(** ** [class InjectorClient] *)

Abbreviation Dict := (gmap PyType PyObj).
Abbreviation DictRef := nat.

(** The dict objects allocated so far; a reference is an index. *)
Abbreviation Heap := (list (gmap PyType PyObj)).

Record InjectorClient := mkInjectorClient {
  _callback_overrides : gmap PyObj PyObj;
  _client : Client;
  _component_mapping_values : gset PyObj;
  _component_mapping : DictRef;
  _type_dependencies : gmap PyType PyVal;
  (* not a slot: the result of [bool(self)].  [InjectorClient] defines
     neither [__bool__] nor [__len__], so its own instances are true; an
     instance of a subclass that defines one of them may be false. *)
  registry_bool : bool
}.

(** [InjectorClient.__init__(client)] on an instance of [InjectorClient]
    itself: the empty mapping is a new dict. *)
Definition InjectorClient_init (client : Client) (h : Heap)
  : InjectorClient * Heap :=
  ({| _callback_overrides := ∅;
      _client := client;
      _component_mapping_values := ∅;
      _component_mapping := length h;
      _type_dependencies := ∅;
      registry_bool := true |},
   h ++ [∅]).

Definition add_type_dependency (self : InjectorClient) (type_ : PyType)
    (value : PyVal) : InjectorClient :=
  {| _callback_overrides := _callback_overrides self;
     _client := _client self;
     _component_mapping_values := _component_mapping_values self;
     _component_mapping := _component_mapping self;
     _type_dependencies := <[type_ := value]> (_type_dependencies self);
     registry_bool := registry_bool self |}.

Definition get_type_dependency (self : InjectorClient) (type_ : PyType)
  : PyVal :=
  default VUndefined (_type_dependencies self !! type_).

Definition add_callable_override (self : InjectorClient)
    (callback override : PyObj) : InjectorClient :=
  {| _callback_overrides := <[callback := override]> (_callback_overrides self);
     _client := _client self;
     _component_mapping_values := _component_mapping_values self;
     _component_mapping := _component_mapping self;
     _type_dependencies := _type_dependencies self;
     registry_bool := registry_bool self |}.

Definition get_callable_override (self : InjectorClient) (callback : PyObj)
  : option PyObj :=
  _callback_overrides self !! callback.

(** [{type(component): component for component in components}]: a later
    component of the same class replaces an earlier one. *)
Definition build_component_mapping (cs : list PyObj) : Dict :=
  foldl (λ m c, <[otype c := c]> m) ∅ cs.

(** [InjectorClient._get_component_mapping()]. *)
Definition _get_component_mapping (self : InjectorClient) (h : Heap)
  : DictRef * InjectorClient * Heap :=
  if bool_decide (_component_mapping_values self
                  ≠ list_to_set (components (_client self))) then
    (* self._component_mapping.clear() empties the old dict object *)
    let h1 := <[_component_mapping self := ∅]> h in
    (* the comprehension allocates a new dict object *)
    let new := length h1 in
    let h2 := h1 ++ [build_component_mapping (components (_client self))] in
    (new,
     {| _callback_overrides := _callback_overrides self;
        _client := _client self;
        _component_mapping_values := list_to_set (components (_client self));
        _component_mapping := new;
        _type_dependencies := _type_dependencies self;
        registry_bool := registry_bool self |},
     h2)
  else (_component_mapping self, self, h).

(** [d.get(key)] on the dict object behind a reference ([None] when the
    key is absent). *)
Definition dict_get (h : Heap) (r : DictRef) (key : PyType) : option PyObj :=
  h !! r ≫= (λ d : gmap PyType PyObj, d !! key).

(** ** Getters *)

(** The two closures the registry hands out, with what they capture. *)
Inductive Getter :=
| CallbackGetter (callback : UndefinedOr PyObj)
| TypeGetter (type_ : PyType) (default_to_client try_component : bool).

Global Instance Getter_eq_dec : EqDecision Getter.
Proof. solve_decision. Defined.

(** [str(type_)] for a class object. *)
Definition type_str (t : PyType) : string := "<class '" +:+ ty_name t +:+ "'>".

Definition unresolved_message (t : PyType) : string :=
  "Couldn't resolve injected type " +:+ type_str t +:+ " to actual value".

(** The [get] closure of [_make_callback_getter]:
    [self._callback_overrides.get(callback, callback)]. *)
Definition get_callback (callback : UndefinedOr PyObj) (self : InjectorClient)
  : PyVal :=
  match callback with
  | UNDEFINED => VUndefined
  | Defined f => VObj (default f (_callback_overrides self !! f))
  end.

(** The truth test of an optional object, as in [if ctx.component] and
    [if value := d.get(key)]: [None] is false, an object is as true as its
    [bool()].  The result is the object when the test passes. *)
Definition if_true (o : option PyObj) : option PyObj :=
  match o with
  | Some x => if otruthy x then Some x else None
  | None => None
  end.

(** The [get] closure of [_make_type_getter]. *)
Definition get_type (type_ : PyType) (default_to_client try_component : bool)
    (ctx : Context) (self : InjectorClient) (h : Heap)
  : Result PyVal * InjectorClient * Heap :=
  match _type_dependencies self !! type_ with
  | Some value => (Ok value, self, h)
  | None =>                                              (* except KeyError *)
      if default_to_client then (Ok (VObj (client ctx)), self, h)
      else if try_component then
        let '(m, self1, h1) := _get_component_mapping self h in
        match if_true (dict_get h1 m type_) with
        | Some value => (Ok (VObj value), self1, h1)
        | None =>
            match if_true (component ctx) with
            | Some c => (Ok (VObj c), self1, h1)
            | None =>
                (Raise (RuntimeError (unresolved_message type_)), self1, h1)
            end
        end
      else (Raise (RuntimeError (unresolved_message type_)), self, h)
  end.

(** Calling a getter on a context. *)
Definition get (g : Getter) (ctx : Context) (self : InjectorClient) (h : Heap)
  : Result PyVal * InjectorClient * Heap :=
  match g with
  | CallbackGetter callback => (Ok (get_callback callback self), self, h)
  | TypeGetter type_ dc tc => get_type type_ dc tc ctx self h
  end.

(** ** Signatures *)

Inductive ParameterKind :=
| POSITIONAL_ONLY
| POSITIONAL_OR_KEYWORD
| VAR_POSITIONAL
| KEYWORD_ONLY
| VAR_KEYWORD.

Global Instance ParameterKind_eq_dec : EqDecision ParameterKind.
Proof. solve_decision. Defined.

(** An [inspect.Parameter]; a parameter without default has the class
    [inspect.Parameter.empty] as its [default]. *)
Record Param := mkParam { p_kind : ParameterKind; p_default : PyVal }.

Definition Parameter_empty : PyVal := VClass inspect_empty.

(** [d[key] = value] on an insertion-ordered dict. *)
Fixpoint dict_set {A} (key : string) (value : A) (d : list (string * A))
  : list (string * A) :=
  match d with
  | [] => [(key, value)]
  | (k, v) :: d' =>
      if bool_decide (k = key) then (k, value) :: d'
      else (k, v) :: dict_set key value d'
  end.

Abbreviation Getters := (list (string * Getter)).

(** ** The global name [traits] *)

(** The module [tanjun.traits], declared elsewhere: the two classes of it
    that this module reads. *)
Record TraitsModule := mkTraitsModule {
  traits_Client : PyType;
  traits_Component : PyType
}.

(** [typing.TYPE_CHECKING]: false at run time. *)
Definition TYPE_CHECKING : bool := false.

Section Injector.

(** The module that [from . import traits] would bind. *)
Variable traits_module : TraitsModule.

(** The global name [traits] after the module's
    [if typing.TYPE_CHECKING: from . import traits]. *)
Definition traits : option TraitsModule :=
  if TYPE_CHECKING then Some traits_module else None.

(** Reading the global name [traits]. *)
Definition read_traits : Result TraitsModule :=
  match traits with
  | Some m => Ok m
  | None => Raise NameError
  end.

Definition _make_callback_getter (callback : UndefinedOr PyObj) : Getter :=
  CallbackGetter callback.

(** [_make_type_getter(type_)]: the two flags are computed before the
    closure is made. *)
Definition _make_type_getter (type_ : PyType) : Result Getter :=
  m ← read_traits;
  let default_to_client := issubclass type_ (traits_Client m) in
  m' ← read_traits;
  let try_component := issubclass type_ (traits_Component m') in
  Ok (TypeGetter type_ default_to_client try_component).

(** The getter of a parameter that the loop did not skip (the body of the
    loop of [resolve_callback_to_getters] after the [continue]). *)
Definition parameter_getter (parameter : Param) : Result Getter :=
  if bool_decide (p_kind parameter = POSITIONAL_ONLY) then
    Raise (ValueError "Injected positional only arguments are not supported")
  else
    callback ← attr_callback (p_default parameter);
    if truthy (undefined_or_val VObj callback) then
      Ok (_make_callback_getter callback)
    else
      type ← attr_type (p_default parameter);
      match type with
      | UNDEFINED => Raise AssertionError
      | Defined t => _make_type_getter t
      end.

(** One iteration of the loop of [resolve_callback_to_getters]. *)
Definition resolve_parameter (getters : Getters) (name : string)
    (parameter : Param) : Result Getters :=
  (* parameter.default is parameter.default: always true *)
  is_inst ← isinstance (VClass Injected_cls) (p_default parameter);
  if true && negb is_inst then Ok getters                       (* continue *)
  else
    getter ← parameter_getter parameter;
    Ok (dict_set name getter getters).

Fixpoint resolve_parameters (getters : Getters)
    (parameters : list (string * Param)) : Result Getters :=
  match parameters with
  | [] => Ok getters
  | (name, parameter) :: rest =>
      getters' ← resolve_parameter getters name parameter;
      resolve_parameters getters' rest
  end.

(** [InjectorClient.resolve_callback_to_getters(callback)], on the
    parameters of [inspect.signature(callback)]. *)
Definition resolve_callback_to_getters
    (parameters : list (string * Param)) : Result Getters :=
  resolve_parameters [] parameters.

(** ** [class InjectableCheck] *)

(** A wrapped callback: its signature and what a call with the given
    positional and keyword arguments produces. *)
Record Callback := mkCallback {
  signature : list (string * Param);
  invoke : list PyVal → list (string * PyVal) → Result PyVal
}.

(** A slot of a class with [__slots__]: unset until first assigned. *)
Inductive Slot (A : Type) : Type :=
| Unset
| Assigned (a : A).
Global Arguments Unset {A}.
Global Arguments Assigned {A} a.

(** The fields of a wrapper.  The registry that [injector] refers to is
    modelled by its content: what the getters change in it during a call is
    written back to the field. *)
Record InjectableCheck := mkInjectableCheck {
  callback : Callback;
  _cached_getters : Slot (option Getters);
  injector : option InjectorClient;
  is_async : option bool
}.

(** [InjectableCheck.__init__(callback)].  The statement for
    [_cached_getters] is an annotation without a value: it assigns
    nothing. *)
Definition InjectableCheck_init (callback : Callback) : InjectableCheck :=
  {| callback := callback;
     _cached_getters := Unset;
     injector := None;
     is_async := None |}.

(** [bool(self.injector)]: [None] is false, a registry is as true as its
    [bool()]. *)
Definition injector_bool (self : InjectableCheck) : bool :=
  match injector self with
  | Some inj => registry_bool inj
  | None => false
  end.

(** [InjectableCheck.add_injector(client)]: the test is [if self.injector]. *)
Definition add_injector (self : InjectableCheck) (client : InjectorClient)
  : Result unit * InjectableCheck :=
  if injector_bool self then
    (Raise (RuntimeError "Injector already set for this check"), self)
  else
    (Ok (),
     {| callback := callback self;
        _cached_getters := _cached_getters self;
        injector := Some client;
        is_async := is_async self |}).

(** [{name: getter(ctx) for name, getter in getters.items()}]. *)
Fixpoint call_getters (getters : Getters) (ctx : Context)
    (inj : InjectorClient) (h : Heap)
  : Result (list (string * PyVal)) * InjectorClient * Heap :=
  match getters with
  | [] => (Ok [], inj, h)
  | (name, getter) :: rest =>
      let '(r, inj1, h1) := get getter ctx inj h in
      match r with
      | Raise e => (Raise e, inj1, h1)
      | Ok v =>
          let '(rs, inj2, h2) := call_getters rest ctx inj1 h1 in
          (values ← rs; Ok ((name, v) :: values), inj2, h2)
      end
  end.

Definition is_awaitable (v : PyVal) : bool :=
  match v with VAwaitable _ => true | _ => false end.

Definition is_bool (v : PyVal) : bool :=
  match v with VBool _ => true | _ => false end.

(** The tail of [__call__], from the result of the wrapped callback on. *)
Definition finish_call (self : InjectableCheck) (result : PyVal)
  : Result PyVal * InjectableCheck :=
  let flag := default (is_awaitable result) (is_async self) in
  let self' := {| callback := callback self;
                  _cached_getters := _cached_getters self;
                  injector := injector self;
                  is_async := Some flag |} in
  if flag then
    match result with
    | VAwaitable v => (Ok v, self')                        (* await result *)
    | _ => (Raise AssertionError, self')
    end
  else if is_bool result then (Ok result, self')
  else (Raise AssertionError, self').

(** [InjectableCheck.__call__(ctx)]. *)
Definition call (self : InjectableCheck) (ctx : Context) (h : Heap)
  : Result PyVal * InjectableCheck * Heap :=
  match injector self with
  | None =>
      (Raise (RuntimeError
         "Cannot call an injectable check before the injector has been set"),
       self, h)
  | Some inj =>
      match _cached_getters self with
      | Unset => (Raise AttributeError, self, h)
      | Assigned cached =>
          match (match cached with
                 | None => resolve_callback_to_getters (signature (callback self))
                 | Some getters => Ok getters
                 end) with
          | Raise e => (Raise e, self, h)
          | Ok getters =>
              let '(r, inj1, h1) := call_getters getters ctx inj h in
              let self1 := {| callback := callback self;
                              _cached_getters := Assigned (Some getters);
                              injector := Some inj1;
                              is_async := is_async self |} in
              match r with
              | Raise e => (Raise e, self1, h1)
              | Ok values =>
                  (* self.callback( *values ): the keys, positionally *)
                  match invoke (callback self) (VStr <$> values.*1) [] with
                  | Raise e => (Raise e, self1, h1)
                  | Ok result =>
                      let '(out, self2) := finish_call self1 result in
                      (out, self2, h1)
                  end
              end
          end
      end
  end.

End Injector.

(** ** The wrapper as a state machine *)

Inductive Op :=
| AttachRegistry (client : InjectorClient)      (* add_injector(client) *)
| Invoke (ctx : Context).                       (* __call__(ctx) *)

(** One operation on a wrapper; an exception leaves the state as the
    operation left it. *)
Definition step (traits_module : TraitsModule)
    (st : InjectableCheck * Heap) (op : Op) : InjectableCheck * Heap :=
  match op with
  | AttachRegistry client => ((add_injector st.1 client).2, st.2)
  | Invoke ctx =>
      let '(_, self, h) := call traits_module st.1 ctx st.2 in
      (self, h)
  end.

Definition run (traits_module : TraitsModule) (ops : list Op)
    (st : InjectableCheck * Heap) : InjectableCheck * Heap :=
  foldl (step traits_module) st ops.

(** The two states of a wrapper. *)
Definition Unbound (self : InjectableCheck) : Prop := injector self = None.
Definition Bound (self : InjectableCheck) : Prop := is_Some (injector self).

(** ** What the component steps of a type getter see *)

(** The component that the refreshed mapping holds for [t], if it is
    true. *)
Definition mapped_component (self : InjectorClient) (h : Heap) (t : PyType)
  : option PyObj :=
  let '(m, _, h1) := _get_component_mapping self h in
  if_true (dict_get h1 m t).

(** The current component of the context, if there is one and it is
    true. *)
Definition current_component (ctx : Context) : option PyObj :=
  if_true (component ctx).

(** ** The resolution order in the words of the specification *)

(** Section 4.2 of the specification, steps 1 to 5, written down as it
    reads, to be compared with [get_type].  [host_type] is what it calls
    "the host client's type" and [component_type] the class of components. *)
Definition spec_resolution_order (host_type component_type : PyType)
    (t : PyType) (ctx : Context) (self : InjectorClient) (h : Heap)
  : Result PyVal :=
  match _type_dependencies self !! t with
  | Some v => Ok v                                                   (* 1 *)
  | None =>
      (* 2: the host client's type or a supertype of it *)
      if issubclass host_type t then Ok (VObj (client ctx))
      else
        let '(m, _, h1) := _get_component_mapping self h in
        (* 3: a component type or a supertype of one, resolved by the mapping *)
        match (if issubclass t component_type || issubclass component_type t
               then dict_get h1 m t else None) with
        | Some c => Ok (VObj c)
        | None =>
            match component ctx with
            | Some c => Ok (VObj c)                                  (* 4 *)
            | None => Raise (RuntimeError (unresolved_message t))    (* 5 *)
            end
        end
  end.

(** ** A small host, used for concrete runs *)

Module Example.

Definition Client_cls : PyType := mkType "tanjun.traits.Client" ["object"].
Definition Component_cls : PyType := mkType "tanjun.traits.Component" ["object"].

(** The host's client class and two component classes. *)
Definition Bot : PyType :=
  mkType "tanjun.clients.Client" ["tanjun.traits.Client"; "object"].
Definition Plugin : PyType :=
  mkType "plugins.Plugin" ["tanjun.traits.Component"; "object"].
Definition Basket : PyType :=
  mkType "plugins.Basket" ["tanjun.traits.Component"; "object"].
(** A class that implements both interfaces. *)
Definition Hybrid : PyType :=
  mkType "plugins.Hybrid"
         ["tanjun.traits.Client"; "tanjun.traits.Component"; "object"].
(** Another client class, unrelated to [Bot]. *)
Definition OtherBot : PyType :=
  mkType "other.Client" ["tanjun.traits.Client"; "object"].
(** A class unrelated to clients and components. *)
Definition Config : PyType := mkType "app.Config" ["object"].

(** The module [tanjun.traits] of this host. *)
Definition traits_mod : TraitsModule := mkTraitsModule Client_cls Component_cls.

Definition bot : PyObj := mkObj 1 Bot true.
Definition plugin : PyObj := mkObj 2 Plugin true.
(** A component whose [__len__] is 0: it is false. *)
Definition basket : PyObj := mkObj 3 Basket false.
Definition hybrid : PyObj := mkObj 4 Hybrid false.
Definition cfg1 : PyObj := mkObj 5 Config true.

(** A registry on a host with the given components, and nothing registered. *)
Definition registry (cs : list PyObj) : InjectorClient * Heap :=
  InjectorClient_init (mkClient bot cs) [].

(** A registry of a subclass of [InjectorClient] whose [__bool__] returns
    [False]. *)
Definition quiet_registry : InjectorClient :=
  mkInjectorClient ∅ (mkClient bot []) ∅ 0 ∅ false.

(** The parameters of [def check(ctx, cfg=Injected(type=Config))]. *)
Definition check_signature : list (string * Param) :=
  [("ctx", mkParam POSITIONAL_OR_KEYWORD Parameter_empty);
   ("cfg", mkParam POSITIONAL_OR_KEYWORD (VInjected UNDEFINED (Defined Config)))].

(** A check with the single keyword-only parameter
    [cfg=Injected(type=Config)] that returns [bool(cfg)]. *)
Definition check_cfg : Callback :=
  mkCallback
    [("cfg", mkParam KEYWORD_ONLY (VInjected UNDEFINED (Defined Config)))]
    (λ args kwargs,
       match args, kwargs with
       | [], [(name, v)] =>
           if bool_decide (name = "cfg") then Ok (VBool (truthy v))
           else Raise TypeError
       | _, _ => Raise TypeError
       end).

End Example.

(** ** [class Undefined] *)

(** The class object [Undefined] as [__new__] sees it: its private class
    attribute [__instance], which is only annotated and so unset until the
    first construction, and the identity that the next object made by
    [super().__new__(cls)] gets. *)
Record UndefinedClass := mkUndefinedClass {
  _Undefined__instance : option nat;
  next_object : nat
}.

(** [Undefined.__new__(cls)]: the object returned and the class after the
    call. *)
Definition Undefined_new (cls : UndefinedClass) : nat * UndefinedClass :=
  match _Undefined__instance cls with
  | Some instance => (instance, cls)             (* return cls.__instance *)
  | None =>                                      (* except AttributeError *)
      let new := next_object cls in
      (new, mkUndefinedClass (Some new) (S new))
  end.

(** [n] constructions [Undefined()] in a row: the objects returned, in
    order, and the class after them. *)
Fixpoint Undefined_news (n : nat) (cls : UndefinedClass)
  : list nat * UndefinedClass :=
  match n with
  | 0 => ([], cls)
  | S n' =>
      let '(o, cls1) := Undefined_new cls in
      let '(os, cls2) := Undefined_news n' cls1 in
      (o :: os, cls2)
  end.

(** ** The registry as a state machine *)

(** The host replaces its component set (done by the host, outside this
    module; the registry reads it through [self._client.components]). *)
Definition set_components (self : InjectorClient) (cs : list PyObj)
  : InjectorClient :=
  {| _callback_overrides := _callback_overrides self;
     _client := mkClient (client_obj (_client self)) cs;
     _component_mapping_values := _component_mapping_values self;
     _component_mapping := _component_mapping self;
     _type_dependencies := _type_dependencies self;
     registry_bool := registry_bool self |}.

Inductive RegistryOp :=
| AddTypeDependency (type_ : PyType) (value : PyVal)
| AddCallableOverride (callback override : PyObj)
| SetComponents (cs : list PyObj)
| GetComponentMapping
| Resolve (getter : Getter) (ctx : Context).

(** One operation on a registry and the heap of dict objects. *)
Definition registry_step (st : InjectorClient * Heap) (op : RegistryOp)
  : InjectorClient * Heap :=
  match op with
  | AddTypeDependency type_ value => (add_type_dependency st.1 type_ value, st.2)
  | AddCallableOverride callback override =>
      (add_callable_override st.1 callback override, st.2)
  | SetComponents cs => (set_components st.1 cs, st.2)
  | GetComponentMapping =>
      let '(_, self, h) := _get_component_mapping st.1 st.2 in (self, h)
  | Resolve getter ctx =>
      let '(_, self, h) := get getter ctx st.1 st.2 in (self, h)
  end.

Definition registry_run (ops : list RegistryOp) (st : InjectorClient * Heap)
  : InjectorClient * Heap :=
  foldl registry_step st ops.

(** The stored mapping is what the comprehension gives on some listing of
    the stored snapshot. *)
Definition cache_consistent (self : InjectorClient) (h : Heap) : Prop :=
  ∃ cs, _component_mapping_values self = list_to_set cs
        ∧ h !! _component_mapping self = Some (build_component_mapping cs).

(** ** Callables and checks, used for concrete runs *)

Module Callables.

Definition function : PyType := mkType "function" ["object"].

Definition load_config : PyObj := mkObj 10 function true.
Definition fake_config : PyObj := mkObj 11 function true.
Definition stub_config : PyObj := mkObj 12 function true.

(** A check without parameters that returns [True]. *)
Definition always : Callback :=
  mkCallback []
    (λ args kwargs,
       match args, kwargs with
       | [], [] => Ok (VBool true)
       | _, _ => Raise TypeError
       end).

(** A coroutine function without parameters whose awaited result is the
    string ["yes"]. *)
Definition answer : Callback :=
  mkCallback []
    (λ args kwargs,
       match args, kwargs with
       | [], [] => Ok (VAwaitable (VStr "yes"))
       | _, _ => Raise TypeError
       end).

(** A callable with the signature of [Example.check_cfg] that does what
    [Example.check_cfg] does when called without keyword, and returns
    [False] when called with one. *)
Definition check_kw : Callback :=
  mkCallback (signature Example.check_cfg)
    (λ args kwargs,
       match kwargs with
       | [] => invoke Example.check_cfg args []
       | _ :: _ => Ok (VBool false)
       end).

End Callables.

(** Settle a decidable statement about concrete data by evaluation. *)
Ltac by_decide :=
  match goal with
  | |- ?P => apply (bool_decide_unpack P); vm_compute; exact I
  end.

(** * Properties of the registry *)

Section RegistryFacts.

Variable traits_module : TraitsModule.

Lemma string_length_app (a b : string) :
  String.length (a +:+ b) = String.length a + String.length b.
Proof. induction a as [|c a IH]; simpl; [done | by rewrite IH]. Qed.

Lemma append_inj_r (a b s : string) : a +:+ s = b +:+ s → a = b.
Proof.
  revert b. induction a as [|c a IH]; intros [|d b] H.
  - done.
  - apply (f_equal String.length) in H.
    rewrite !string_length_app in H. simpl in H. lia.
  - apply (f_equal String.length) in H.
    rewrite !string_length_app in H. simpl in H. lia.
  - injection H as -> H. f_equal. by apply IH.
Qed.

(** The error message mentions the class by name, and only its name. *)
Lemma unresolved_message_inj (t t' : PyType) :
  unresolved_message t' = unresolved_message t → ty_name t' = ty_name t.
Proof.
  unfold unresolved_message, type_str. intros H.
  apply (inj (String.app _)), append_inj_r, (inj (String.app _)) in H.
  by apply append_inj_r in H.
Qed.

(** A cache hit leaves the registry and the heap as they are. *)
Lemma get_component_mapping_hit (self : InjectorClient) (h : Heap) :
  _component_mapping_values self = list_to_set (components (_client self)) →
  _get_component_mapping self h = (_component_mapping self, self, h).
Proof.
  intros Heq. unfold _get_component_mapping.
  rewrite bool_decide_eq_false_2; [done | by intros ?].
Qed.

(** A rebuild: the old dict object is emptied, a new one is allocated with
    the comprehension's content, and the snapshot is replaced. *)
Lemma get_component_mapping_miss (self : InjectorClient) (h : Heap) :
  _component_mapping_values self ≠ list_to_set (components (_client self)) →
  _get_component_mapping self h =
    (length h,
     mkInjectorClient (_callback_overrides self) (_client self)
       (list_to_set (components (_client self))) (length h)
       (_type_dependencies self) (registry_bool self),
     <[_component_mapping self := ∅]> h
       ++ [build_component_mapping (components (_client self))]).
Proof.
  intros Hne. unfold _get_component_mapping.
  rewrite bool_decide_eq_true_2; [| done].
  by rewrite length_insert.
Qed.

(** After a call the snapshot equals the host's component set. *)
Lemma get_component_mapping_snapshot (self : InjectorClient) (h : Heap) :
  let s1 := (_get_component_mapping self h).1.2 in
  _component_mapping_values s1 = list_to_set (components (_client s1)).
Proof.
  simpl. unfold _get_component_mapping. case_bool_decide as Hd; simpl.
  - done.
  - done.
Qed.

(** At run time the factory stops at its first line: the name [traits] is
    unbound. *)
Lemma make_type_getter_NameError (t : PyType) :
  _make_type_getter traits_module t = Raise NameError.
Proof. reflexivity. Qed.

(** C3: [_make_type_getter(t)] raises [NameError] for every type, also for
    one registered with [add_type_dependency(t, v)]: no getter is made.  The
    closure that the factory defines, whatever flags it captures, does
    return [v] in every context, and leaves the registry and the heap
    untouched. *)
Theorem type_getter_factory_raises
    (self : InjectorClient) (t : PyType) (v : PyVal) (ctx : Context) (h : Heap) :
  _make_type_getter traits_module t = Raise NameError
  ∧ ∀ dc tc,
      get (TypeGetter t dc tc) ctx (add_type_dependency self t v) h
      = (Ok v, add_type_dependency self t v, h).
Proof.
  split; [reflexivity |]. intros dc tc.
  unfold get, get_type, add_type_dependency; simpl.
  by rewrite lookup_insert_eq.
Qed.

(** C8, as amended: for a type [t] with no entry in [_type_dependencies],
    the closure that [_make_type_getter(t)] defines with both captured flags
    false ([t] is neither [traits.Client] or a subclass of it, nor
    [traits.Component] or a subclass of it) raises, in every context, the
    [RuntimeError] whose message is built from [t]; the message determines
    the name of the type. *)
Theorem unresolved_type_raises
    (self : InjectorClient) (t : PyType) (dc tc : bool)
    (ctx : Context) (h : Heap) :
  _type_dependencies self !! t = None →
  dc = false →
  tc = false →
  get (TypeGetter t dc tc) ctx self h
    = (Raise (RuntimeError (unresolved_message t)), self, h)
  ∧ ∀ t', unresolved_message t' = unresolved_message t → ty_name t' = ty_name t.
Proof.
  intros Hdep -> ->. split.
  - unfold get, get_type. by rewrite Hdep.
  - intros t'. apply unresolved_message_inj.
Qed.

(** C9: two calls of [_get_component_mapping] in a row, the host's set
    unchanged in between, return the same dict object; the second call
    changes neither the registry nor any dict object.  A call whose snapshot
    equals the host's set returns the stored mapping and changes nothing;
    a call whose snapshot differs allocates the rebuilt mapping. *)
Theorem component_mapping_idempotent (self : InjectorClient) (h : Heap) :
  let r := _get_component_mapping self h in
  let r' := _get_component_mapping r.1.2 r.2 in
  (r'.1.1 = r.1.1 ∧ r'.2 !! r'.1.1 = r.2 !! r.1.1
   ∧ r'.1.2 = r.1.2 ∧ r'.2 = r.2)
  ∧ (_component_mapping_values self = list_to_set (components (_client self)) →
     r = (_component_mapping self, self, h))
  ∧ (_component_mapping_values self ≠ list_to_set (components (_client self)) →
     r.1.1 = length h
     ∧ r.2 !! r.1.1 = Some (build_component_mapping (components (_client self)))
     ∧ _component_mapping r.1.2 = r.1.1
     ∧ _component_mapping_values r.1.2
       = list_to_set (components (_client self))).
Proof.
  pose proof (get_component_mapping_snapshot self h) as Hsnap. simpl in *.
  destruct (_get_component_mapping self h) as [[m1 s1] h1] eqn:E1.
  simpl in *.
  assert (_component_mapping s1 = m1) as Hm1.
  { unfold _get_component_mapping in E1. case_bool_decide; by simplify_eq. }
  rewrite (get_component_mapping_hit s1 h1 Hsnap), Hm1.
  split; [done |]. split.
  - intros Heq. by rewrite (get_component_mapping_hit self h Heq) in E1.
  - intros Hne. rewrite (get_component_mapping_miss self h Hne) in E1.
    simplify_eq. repeat split.
    rewrite lookup_app_r; rewrite length_insert; [| lia].
    by rewrite Nat.sub_diag.
Qed.

(** The two component steps of [get_type], read off its definition. *)
Lemma get_type_component_steps
    (self : InjectorClient) (t : PyType) (ctx : Context) (h : Heap) :
  _type_dependencies self !! t = None →
  (get_type t false true ctx self h).1.1 =
    match mapped_component self h t with
    | Some c => Ok (VObj c)
    | None =>
        match current_component ctx with
        | Some d => Ok (VObj d)
        | None => Raise (RuntimeError (unresolved_message t))
        end
    end.
Proof.
  intros Hdep. unfold get_type, mapped_component, current_component.
  rewrite Hdep.
  destruct (_get_component_mapping self h) as [[m s1] h1].
  destruct (if_true (dict_get h1 m t)) as [c|]; [done |].
  by destruct (if_true (component ctx)).
Qed.

(** C2, as amended: the closure that [_make_type_getter(t)] defines, with
    the flags [default_to_client] and [try_component] it captures (meant to
    be [issubclass(t, traits.Client)] and [issubclass(t, traits.Component)]),
    returns (1) the entry of [t] in [_type_dependencies] if there is one;
    (2) else the context's client if [default_to_client]; (3) else, if
    [try_component], the component that the refreshed mapping holds for [t]
    when that component is true; (4) else, still only if [try_component],
    the context's current component when there is one and it is true;
    (5) else it raises the unresolved-dependency error. *)
Theorem type_getter_resolution_order
    (self : InjectorClient) (t : PyType) (dc tc : bool)
    (ctx : Context) (h : Heap) :
  let r := (get (TypeGetter t dc tc) ctx self h).1.1 in
  (∀ v, _type_dependencies self !! t = Some v → r = Ok v)
  ∧ (_type_dependencies self !! t = None →
     dc = true →
     r = Ok (VObj (client ctx)))
  ∧ (∀ c, _type_dependencies self !! t = None →
     dc = false →
     tc = true →
     mapped_component self h t = Some c →
     r = Ok (VObj c))
  ∧ (∀ d, _type_dependencies self !! t = None →
     dc = false →
     tc = true →
     mapped_component self h t = None →
     current_component ctx = Some d →
     r = Ok (VObj d))
  ∧ (_type_dependencies self !! t = None →
     dc = false →
     tc = false
     ∨ (mapped_component self h t = None ∧ current_component ctx = None) →
     r = Raise (RuntimeError (unresolved_message t))).
Proof.
  simpl. split_and!.
  - intros v Hdep. unfold get_type. by rewrite Hdep.
  - intros Hdep ->. unfold get_type. by rewrite Hdep.
  - intros c Hdep -> -> Hm.
    by rewrite get_type_component_steps, Hm.
  - intros d Hdep -> -> Hm Hcur.
    by rewrite get_type_component_steps, Hm, Hcur.
  - intros Hdep -> [-> | [Hm Hcur]].
    + unfold get_type. by rewrite Hdep.
    + destruct tc.
      * by rewrite get_type_component_steps, Hm, Hcur.
      * unfold get_type. by rewrite Hdep.
Qed.

(** C10, as amended: for a request [t] with no entry in
    [_type_dependencies] whose closure captured [try_component] true and
    [default_to_client] false ([t] is component-typed and not client-typed),
    and whose entry in the refreshed component mapping is a false component
    [c]: the closure does not return [c]; it returns the context's current
    component when there is one and it is true, and raises the
    unresolved-dependency error otherwise. *)
Theorem falsy_component_falls_through
    (self : InjectorClient) (t : PyType) (dc tc : bool) (ctx : Context)
    (h : Heap) (c : PyObj) :
  _type_dependencies self !! t = None →
  tc = true →
  dc = false →
  (let '(m, _, h1) := _get_component_mapping self h in dict_get h1 m t)
    = Some c →
  otruthy c = false →
  let r := (get (TypeGetter t dc tc) ctx self h).1.1 in
  r ≠ Ok (VObj c)
  ∧ r = match current_component ctx with
        | Some d => Ok (VObj d)
        | None => Raise (RuntimeError (unresolved_message t))
        end.
Proof.
  intros Hdep -> -> Hm Hfalse. simpl.
  rewrite get_type_component_steps by done.
  assert (mapped_component self h t = None) as ->.
  { unfold mapped_component.
    destruct (_get_component_mapping self h) as [[m s1] h1].
    rewrite Hm. simpl. by rewrite Hfalse. }
  split; [| done].
  unfold current_component, if_true.
  destruct (component ctx) as [d|]; [| done].
  destruct (otruthy d) eqn:Hd; [| done].
  intros [= ->]. congruence.
Qed.

End RegistryFacts.

(** * Properties of the signature resolver *)

Section ResolverFacts.

Variable traits_module : TraitsModule.

(** An iteration of the loop never adds an entry: it skips the parameter or
    raises. *)
Lemma resolve_parameter_adds_nothing
    (getters getters' : Getters) (name : string) (parameter : Param) :
  resolve_parameter traits_module getters name parameter
    = Ok getters' →
  getters' = getters.
Proof.
  unfold resolve_parameter, parameter_getter.
  destruct parameter as [kind d]; simpl.
  destruct d; simpl; try discriminate.
  destruct (issubclass builtins_type t); simpl; [| congruence].
  by case_bool_decide.
Qed.

Lemma resolve_parameters_adds_nothing
    (parameters : list (string * Param)) (getters getters' : Getters) :
  resolve_parameters traits_module getters parameters
    = Ok getters' →
  getters' = getters.
Proof.
  revert getters. induction parameters as [|[name p] rest IH];
    intros getters; simpl.
  - congruence.
  - destruct (resolve_parameter _ getters name p) as [g1|e] eqn:E; simpl;
      [| discriminate].
    apply resolve_parameter_adds_nothing in E as ->. apply IH.
Qed.

(** A marker with a true callable gets the callback getter of that callable;
    a marker whose callable is false fails the assertion. *)
Lemma parameter_getter_callable (kind : ParameterKind) (f : PyObj) :
  kind ≠ POSITIONAL_ONLY →
  parameter_getter traits_module
    (mkParam kind (VInjected (Defined f) UNDEFINED))
  = if otruthy f then Ok (_make_callback_getter (Defined f))
    else Raise AssertionError.
Proof.
  intros Hk. unfold parameter_getter; simpl.
  rewrite bool_decide_eq_false_2 by done. simpl. by destruct (otruthy f).
Qed.

End ResolverFacts.

(** C1: [resolve_callback_to_getters] on a callback whose only parameter
    has an [Injected] marker as default raises [TypeError] instead of
    returning an entry for it; so it does on a parameter with an ordinary
    default such as [None]; a parameter without default is skipped, so that
    [check(ctx, cfg=Injected(type=Config))] raises at [cfg]; and no call
    ever returns a mapping with an entry. *)
Theorem injected_default_raises
    (traits_module : TraitsModule) (name : string)
    (kind : ParameterKind) (callback : UndefinedOr PyObj)
    (type : UndefinedOr PyType) (parameters : list (string * Param)) :
  resolve_callback_to_getters traits_module
    [(name, mkParam kind (VInjected callback type))] = Raise TypeError
  ∧ resolve_callback_to_getters traits_module
      [(name, mkParam kind VNone)] = Raise TypeError
  ∧ resolve_callback_to_getters traits_module
      [(name, mkParam kind Parameter_empty)] = Ok []
  ∧ resolve_callback_to_getters traits_module
      Example.check_signature = Raise TypeError
  ∧ match resolve_callback_to_getters traits_module
            parameters with
    | Ok getters => getters = []
    | Raise _ => True
    end.
Proof.
  split_and!; [done | done | done | done |].
  destruct (resolve_callback_to_getters _ parameters) as [g|e] eqn:E;
    [| done].
  by apply resolve_parameters_adds_nothing in E.
Qed.

(** C5: for a marker that holds a type, [Injected(type=t)], the loop body
    after the filter picks [_make_callback_getter(UNDEFINED)], which is
    neither a type getter of [t] nor what [_make_type_getter(t)] gives,
    because the marker's [callback] is the true sentinel; that getter yields
    the sentinel itself.  The whole function raises [TypeError] on such a
    parameter before it gets there. *)
Theorem type_marker_gets_callback_getter
    (traits_module : TraitsModule) (t : PyType) (dc tc : bool)
    (ctx : Context) (self : InjectorClient) (h : Heap) :
  Injected UNDEFINED (Defined t) = Ok (VInjected UNDEFINED (Defined t))
  ∧ parameter_getter traits_module
      (mkParam KEYWORD_ONLY (VInjected UNDEFINED (Defined t)))
    = Ok (_make_callback_getter UNDEFINED)
  ∧ _make_callback_getter UNDEFINED ≠ TypeGetter t dc tc
  ∧ Ok (_make_callback_getter UNDEFINED) ≠ _make_type_getter traits_module t
  ∧ get (_make_callback_getter UNDEFINED) ctx self h = (Ok VUndefined, self, h)
  ∧ resolve_callback_to_getters traits_module
      [("cfg", mkParam KEYWORD_ONLY (VInjected UNDEFINED (Defined t)))]
    = Raise TypeError.
Proof. split_and!; done. Qed.

(** * Properties of the injectable-check wrapper *)

Section WrapperFacts.

Variable traits_module : TraitsModule.

Abbreviation call' := (call traits_module).
Abbreviation run' := (run traits_module).
Abbreviation step' := (step traits_module).

Lemma finish_call_injector (self : InjectableCheck) (result : PyVal) :
  injector (finish_call self result).2 = injector self.
Proof.
  unfold finish_call.
  destruct (default (is_awaitable result) (is_async self));
    [by destruct result | by destruct (is_bool result)].
Qed.

(** No operation takes a registry away from a wrapper. *)
Lemma call_keeps_bound (self : InjectableCheck) (ctx : Context) (h : Heap) :
  Bound self → Bound (call' self ctx h).1.2.
Proof.
  unfold Bound, call. intros [inj Hinj]. rewrite Hinj.
  destruct (_cached_getters self) as [|cached]; simpl; [by rewrite Hinj |].
  destruct (match cached with
            | None => _
            | Some getters => Ok getters
            end) as [getters|e]; simpl; [| by rewrite Hinj].
  destruct (call_getters getters ctx inj h) as [[r inj1] h1].
  destruct r as [values|e]; simpl; [| done].
  destruct (invoke _ _ _) as [result|e]; simpl; [| done].
  pose proof (finish_call_injector
    {| callback := callback self;
       _cached_getters := Assigned (Some getters);
       injector := Some inj1;
       is_async := is_async self |} result) as Hf.
  destruct (finish_call _ result) as [out self2]. simpl in *.
  by rewrite Hf.
Qed.

Lemma add_injector_keeps_bound (self : InjectableCheck) (client : InjectorClient) :
  Bound self → Bound (add_injector self client).2.
Proof.
  unfold Bound, add_injector. intros Hb.
  destruct (injector_bool self); simpl; [done | by eexists].
Qed.

Lemma add_injector_unbound (self : InjectableCheck) (client : InjectorClient) :
  Unbound self →
  add_injector self client
  = (Ok (), mkInjectableCheck (callback self) (_cached_getters self)
              (Some client) (is_async self)).
Proof.
  unfold Unbound, add_injector, injector_bool. by intros ->.
Qed.

Lemma step_keeps_bound (st : InjectableCheck * Heap) (op : Op) :
  Bound st.1 → Bound (step' st op).1.
Proof.
  intros Hb. destruct op as [client|ctx]; simpl.
  - by apply add_injector_keeps_bound.
  - pose proof (call_keeps_bound st.1 ctx st.2 Hb) as Hc.
    by destruct (call _ st.1 ctx st.2) as [[r self] h].
Qed.

Lemma run_keeps_bound (ops : list Op) (st : InjectableCheck * Heap) :
  Bound st.1 → Bound (run' ops st).1.
Proof.
  unfold run. revert st. induction ops as [|op ops IH]; intros st Hb; simpl.
  - done.
  - by apply IH, step_keeps_bound.
Qed.

(** A wrapper whose [_cached_getters] slot is unset cannot be called: the
    call raises and changes nothing. *)
Lemma call_unset (self : InjectableCheck) (ctx : Context) (h : Heap) :
  _cached_getters self = Unset →
  ∃ e, call' self ctx h = (Raise e, self, h).
Proof.
  intros Hu. unfold call. rewrite Hu. destruct (injector self); eauto.
Qed.

Lemma step_keeps_unset (st : InjectableCheck * Heap) (op : Op) :
  _cached_getters st.1 = Unset → _cached_getters (step' st op).1 = Unset.
Proof.
  intros Hu. destruct op as [client|ctx]; simpl.
  - unfold add_injector. by destruct (injector_bool st.1).
  - destruct (call_unset st.1 ctx st.2 Hu) as [e ->]. done.
Qed.

Lemma run_keeps_unset (ops : list Op) (st : InjectableCheck * Heap) :
  _cached_getters st.1 = Unset → _cached_getters (run' ops st).1 = Unset.
Proof.
  unfold run. revert st. induction ops as [|op ops IH]; intros st Hu; simpl.
  - done.
  - by apply IH, step_keeps_unset.
Qed.

(** With the cache in place, the wrapped callback is called with the keys
    of the resolved mapping as positional arguments and no keyword. *)
Lemma call_passes_names_positionally
    (self : InjectableCheck) (ctx : Context) (h : Heap)
    (inj inj1 : InjectorClient) (h1 : Heap) (getters : Getters)
    (values : list (string * PyVal)) :
  injector self = Some inj →
  _cached_getters self = Assigned (Some getters) →
  call_getters getters ctx inj h = (Ok values, inj1, h1) →
  (call' self ctx h).1.1 =
    (result ← invoke (callback self) (VStr <$> values.*1) [];
     (finish_call self result).1).
Proof.
  intros Hinj Hc Hg. unfold call. rewrite Hinj, Hc, Hg.
  destruct (invoke _ _ _) as [result|e]; simpl; [| done].
  unfold finish_call; simpl.
  destruct (default (is_awaitable result) (is_async self));
    [by destruct result | by destruct (is_bool result)].
Qed.

(** C7: [add_injector] tests the truth value of the stored registry where
    [__call__] tests [is None].  On a wrapper whose registry is true, as
    every instance of [InjectorClient] itself is, [add_injector] raises the
    "already set" [RuntimeError] and changes nothing; on a wrapper whose
    registry is false (an instance of a subclass with [__bool__] or
    [__len__]) it succeeds and replaces the registry.  On a wrapper that has
    no registry, [__call__] raises the "before the injector has been set"
    [RuntimeError], and [add_injector] succeeds and leaves the wrapper bound
    to the given registry.  A bound wrapper stays bound under every sequence
    of operations. *)
Theorem wrapper_state_machine
    (self : InjectableCheck) (inj client client2 : InjectorClient)
    (ctx : Context) (h : Heap) (ops : list Op) :
  (injector self = Some inj → registry_bool inj = true →
   add_injector self client
   = (Raise (RuntimeError "Injector already set for this check"), self))
  ∧ (injector self = Some inj → registry_bool inj = false →
     add_injector self client
     = (Ok (), mkInjectableCheck (callback self) (_cached_getters self)
                 (Some client) (is_async self)))
  ∧ (Unbound self →
     call' self ctx h
     = (Raise (RuntimeError
          "Cannot call an injectable check before the injector has been set"),
        self, h))
  ∧ (Unbound self →
     let self' := (add_injector self client).2 in
     (add_injector self client).1 = Ok ()
     ∧ injector self' = Some client
     ∧ Bound self'
     ∧ (registry_bool client = true →
        add_injector self' client2
        = (Raise (RuntimeError "Injector already set for this check"), self'))
     ∧ Bound (run' ops (self', h)).1)
  ∧ (Bound self → Bound (run' ops (self, h)).1).
Proof.
  split_and!.
  - intros Hinj Htrue. unfold add_injector, injector_bool.
    by rewrite Hinj, Htrue.
  - intros Hinj Hfalse. unfold add_injector, injector_bool.
    by rewrite Hinj, Hfalse.
  - intros Hu. unfold call. by rewrite Hu.
  - intros Hu. rewrite (add_injector_unbound self client Hu). simpl.
    split_and!; [done | done | by eexists | |].
    + intros Htrue. unfold add_injector, injector_bool. simpl.
      by rewrite Htrue.
    + apply run_keeps_bound. by eexists.
  - intros Hb. by apply run_keeps_bound.
Qed.

(** C6: on a wrapper built by [__init__] and bound by [add_injector], the
    first call raises [AttributeError] at the read of the unset
    [_cached_getters] slot, computes and caches nothing, and so does the
    second call; the slot stays unset under every sequence of operations. *)
Theorem cached_getters_never_computed
    (cb : Callback) (client : InjectorClient) (ctx1 ctx2 : Context)
    (h : Heap) (ops : list Op) :
  let w := (add_injector (InjectableCheck_init cb) client).2 in
  Bound w
  ∧ call' w ctx1 h = (Raise AttributeError, w, h)
  ∧ call' (call' w ctx1 h).1.2 ctx2 (call' w ctx1 h).2
    = (Raise AttributeError, w, h)
  ∧ _cached_getters (run' ops (w, h)).1 = Unset.
Proof.
  simpl. split_and!; [by eexists | done | done |].
  by apply run_keeps_unset.
Qed.

End WrapperFacts.

(** C4: on a wrapper built by [__init__] and bound by [add_injector], a
    call raises [AttributeError] before any getter is resolved and before
    the wrapped callback is called.  And with the cache put in place by
    hand for [check(cfg=Injected(type=Config))] and [Config] registered,
    the getter resolves to the registered value but the callback receives
    the string ["cfg"] as its one positional argument, which it rejects,
    where the same callback called with [cfg] by name returns [True]. *)
Theorem call_does_not_pass_values_by_name
    (traits_module : TraitsModule)
    (cb : Callback) (client : InjectorClient) (ctx : Context) (h : Heap) :
  let w := (add_injector (InjectableCheck_init cb) client).2 in
  call traits_module w ctx h = (Raise AttributeError, w, h)
  ∧ let getters := [("cfg", TypeGetter Example.Config false false)] in
    let inj :=
      add_type_dependency (Example.registry []).1 Example.Config
        (VObj Example.cfg1) in
    let w' := mkInjectableCheck Example.check_cfg (Assigned (Some getters))
                (Some inj) None in
    (call_getters getters ctx inj (Example.registry []).2).1.1
      = Ok [("cfg", VObj Example.cfg1)]
    ∧ (call Example.traits_mod w' ctx (Example.registry []).2).1.1
      = Raise TypeError
    ∧ invoke Example.check_cfg [VStr "cfg"] [] = Raise TypeError
    ∧ invoke Example.check_cfg [] [("cfg", VObj Example.cfg1)]
      = Ok (VBool true).
Proof.
  simpl. split; [done |]. by vm_compute.
Qed.

(** * Concrete runs *)

Import Example.

(** The closure that [_make_type_getter(t)] defines on this host: the flags
    are what its first two lines compute when [traits] names [traits_mod]. *)
Abbreviation closure_of t :=
  (TypeGetter t (issubclass t Client_cls) (issubclass t Component_cls)).
Abbreviation thrown t := (Raise (RuntimeError (unresolved_message t))).

(** C2, as stated, fails at three inputs.  At each of them the factory
    raises [NameError], so that no getter is returned; and the closure it
    defines does not follow the order of the specification, whichever class
    is taken for "the host client's type" (the interface [Client_cls] or
    [Bot], the class of the context's client): [object], a supertype of
    both, is not resolved to the client; an unrelated class is not resolved
    to the current component; a component class whose mapped component is
    false is not resolved to that component.  The closure raises each
    time. *)
Lemma resolution_order_not_as_specified :
  (let ctx := mkContext bot None in
   let reg := registry [] in
   let t := builtins_object in
   let r := (get (closure_of t) ctx reg.1 reg.2).1.1 in
   _make_type_getter traits_mod t = Raise NameError
   ∧ closure_of t = TypeGetter t false false
   ∧ r = thrown t
   ∧ spec_resolution_order Client_cls Component_cls t ctx reg.1 reg.2
     = Ok (VObj bot)
   ∧ r ≠ spec_resolution_order Client_cls Component_cls t ctx reg.1 reg.2
   ∧ r ≠ spec_resolution_order Bot Component_cls t ctx reg.1 reg.2)
  ∧ (let ctx := mkContext bot (Some plugin) in
     let reg := registry [plugin] in
     let t := Config in
     let r := (get (closure_of t) ctx reg.1 reg.2).1.1 in
     _make_type_getter traits_mod t = Raise NameError
     ∧ closure_of t = TypeGetter t false false
     ∧ r = thrown t
     ∧ spec_resolution_order Client_cls Component_cls t ctx reg.1 reg.2
       = Ok (VObj plugin)
     ∧ r ≠ spec_resolution_order Client_cls Component_cls t ctx reg.1 reg.2
     ∧ r ≠ spec_resolution_order Bot Component_cls t ctx reg.1 reg.2)
  ∧ (let ctx := mkContext bot None in
     let reg := registry [basket] in
     let t := Basket in
     let r := (get (closure_of t) ctx reg.1 reg.2).1.1 in
     _make_type_getter traits_mod t = Raise NameError
     ∧ closure_of t = TypeGetter t false true
     ∧ r = thrown t
     ∧ spec_resolution_order Client_cls Component_cls t ctx reg.1 reg.2
       = Ok (VObj basket)
     ∧ r ≠ spec_resolution_order Client_cls Component_cls t ctx reg.1 reg.2
     ∧ r ≠ spec_resolution_order Bot Component_cls t ctx reg.1 reg.2).
Proof.
  cbv zeta.
  split_and!; vm_compute; try reflexivity; intros Heq; discriminate Heq.
Qed.

(** C8, as stated, fails for [OtherBot], a client class unrelated to the
    class [Bot] of the host's client: it has no entry, is neither [Bot] nor
    a supertype or a subtype of it, and is no component class; yet the
    closure, whose [default_to_client] is true, returns the context's
    client instead of raising.  The factory itself raises [NameError], which
    is not the unresolved-dependency error. *)
Lemma unrelated_client_class_resolves :
  let ctx := mkContext bot None in
  let reg := registry [plugin] in
  let t := OtherBot in
  _type_dependencies reg.1 !! t = None
  ∧ otype (client ctx) = Bot ∧ otype (client_obj (_client reg.1)) = Bot
  ∧ t ≠ Bot ∧ issubclass t Bot = false ∧ issubclass Bot t = false
  ∧ issubclass t Component_cls = false
  ∧ Forall (λ c, otype c ≠ t) (components (_client reg.1))
  ∧ closure_of t = TypeGetter t true false
  ∧ get (closure_of t) ctx reg.1 reg.2 = (Ok (VObj bot), reg.1, reg.2)
  ∧ _make_type_getter traits_mod t = Raise NameError
  ∧ _make_type_getter traits_mod t ≠ Raise (RuntimeError (unresolved_message t)).
Proof.
  cbv zeta.
  split_and!; try reflexivity; try by_decide; intros Heq; discriminate Heq.
Qed.

(** C10, as stated, fails for a class that is a component class and a client
    class at once: with the false [hybrid] mapped for [Hybrid] and a current
    component in the context, the closure returns the context's client,
    neither the current component nor an error; and the factory raises
    [NameError]. *)
Lemma falsy_component_of_client_class :
  let ctx := mkContext bot (Some plugin) in
  let reg := registry [hybrid] in
  let r := (get (closure_of Hybrid) ctx reg.1 reg.2).1.1 in
  issubclass Hybrid Component_cls = true
  ∧ closure_of Hybrid = TypeGetter Hybrid true true
  ∧ _type_dependencies reg.1 !! Hybrid = None
  ∧ (let '(m, _, h1) := _get_component_mapping reg.1 reg.2 in
     dict_get h1 m Hybrid) = Some hybrid
  ∧ otruthy hybrid = false
  ∧ current_component ctx = Some plugin
  ∧ r = Ok (VObj bot)
  ∧ r ≠ Ok (VObj plugin)
  ∧ r ≠ thrown Hybrid
  ∧ _make_type_getter traits_mod Hybrid = Raise NameError.
Proof.
  cbv zeta.
  split_and!; vm_compute; try reflexivity; intros Heq; discriminate Heq.
Qed.

(** The five steps of the resolution order, each on the small host: a
    registered class; a client class; a component class with a true
    component in the host's set; a component class whose component is false,
    with and without a true current component; an unrelated class. *)
Lemma type_getter_resolution_order_witness :
  (get (closure_of Bot) (mkContext bot None)
     (add_type_dependency (registry []).1 Bot (VObj cfg1))
     (registry []).2).1.1 = Ok (VObj cfg1)
  ∧ (get (closure_of Bot) (mkContext bot None)
       (registry []).1 (registry []).2).1.1 = Ok (VObj bot)
  ∧ (get (closure_of Plugin) (mkContext bot None)
       (registry [basket; plugin]).1 (registry [basket; plugin]).2).1.1
    = Ok (VObj plugin)
  ∧ (get (closure_of Basket) (mkContext bot (Some plugin))
       (registry [basket]).1 (registry [basket]).2).1.1 = Ok (VObj plugin)
  ∧ (get (closure_of Config) (mkContext bot (Some plugin))
       (registry [plugin]).1 (registry [plugin]).2).1.1 = thrown Config
  ∧ (get (closure_of Basket) (mkContext bot (Some basket))
       (registry [basket]).1 (registry [basket]).2).1.1 = thrown Basket.
Proof.
  split_and!.
  - pose proof (type_getter_resolution_order
                  (add_type_dependency (registry []).1 Bot (VObj cfg1)) Bot
                  (issubclass Bot Client_cls) (issubclass Bot Component_cls)
                  (mkContext bot None) (registry []).2) as H.
    cbv zeta in H. destruct H as (H1 & _).
    apply H1. vm_compute; reflexivity.
  - pose proof (type_getter_resolution_order (registry []).1 Bot
                  (issubclass Bot Client_cls) (issubclass Bot Component_cls)
                  (mkContext bot None) (registry []).2) as H.
    cbv zeta in H. destruct H as (_ & H2 & _).
    apply H2; vm_compute; reflexivity.
  - pose proof (type_getter_resolution_order (registry [basket; plugin]).1
                  Plugin (issubclass Plugin Client_cls)
                  (issubclass Plugin Component_cls) (mkContext bot None)
                  (registry [basket; plugin]).2) as H.
    cbv zeta in H. destruct H as (_ & _ & H3 & _).
    apply H3; vm_compute; reflexivity.
  - pose proof (type_getter_resolution_order (registry [basket]).1 Basket
                  (issubclass Basket Client_cls)
                  (issubclass Basket Component_cls)
                  (mkContext bot (Some plugin)) (registry [basket]).2) as H.
    cbv zeta in H. destruct H as (_ & _ & _ & H4 & _).
    apply H4; vm_compute; reflexivity.
  - pose proof (type_getter_resolution_order (registry [plugin]).1 Config
                  (issubclass Config Client_cls)
                  (issubclass Config Component_cls)
                  (mkContext bot (Some plugin)) (registry [plugin]).2) as H.
    cbv zeta in H. destruct H as (_ & _ & _ & _ & H5).
    apply H5; [vm_compute; reflexivity .. | left; vm_compute; reflexivity].
  - pose proof (type_getter_resolution_order (registry [basket]).1 Basket
                  (issubclass Basket Client_cls)
                  (issubclass Basket Component_cls)
                  (mkContext bot (Some basket)) (registry [basket]).2) as H.
    cbv zeta in H. destruct H as (_ & _ & _ & _ & H5).
    apply H5; [vm_compute; reflexivity ..
              | right; split; vm_compute; reflexivity].
Defined.

(** A host whose only [Basket] is false, and a true current component. *)
Lemma falsy_component_falls_through_witness :
  (get (closure_of Basket) (mkContext bot (Some plugin))
     (registry [basket]).1 (registry [basket]).2).1.1 ≠ Ok (VObj basket)
  ∧ (get (closure_of Basket) (mkContext bot (Some plugin))
       (registry [basket]).1 (registry [basket]).2).1.1 = Ok (VObj plugin).
Proof.
  apply (falsy_component_falls_through (registry [basket]).1 Basket
           (issubclass Basket Client_cls) (issubclass Basket Component_cls)
           (mkContext bot (Some plugin)) (registry [basket]).2 basket);
    vm_compute; reflexivity.
Defined.

(** [Config] is neither registered, nor a client class, nor a component
    class. *)
Lemma unresolved_type_raises_witness :
  get (closure_of Config) (mkContext bot (Some plugin))
    (registry [plugin]).1 (registry [plugin]).2
  = (thrown Config, (registry [plugin]).1, (registry [plugin]).2).
Proof.
  apply (unresolved_type_raises (registry [plugin]).1 Config
           (issubclass Config Client_cls) (issubclass Config Component_cls)
           (mkContext bot (Some plugin)) (registry [plugin]).2);
    vm_compute; reflexivity.
Defined.

(** A new registry on a host with one component: the first call rebuilds
    (the snapshot is empty), the second is a cache hit. *)
Lemma component_mapping_idempotent_witness :
  let reg := registry [plugin] in
  let r := _get_component_mapping reg.1 reg.2 in
  (r.1.1 = length reg.2
   ∧ r.2 !! r.1.1 = Some (build_component_mapping [plugin]))
  ∧ _get_component_mapping r.1.2 r.2 = (_component_mapping r.1.2, r.1.2, r.2).
Proof.
  split.
  - destruct (component_mapping_idempotent (registry [plugin]).1
                (registry [plugin]).2) as (_ & _ & Hmiss).
    destruct Hmiss as (H1 & H2 & _).
    + by_decide.
    + split; [exact H1 | exact H2].
  - destruct (component_mapping_idempotent
                (_get_component_mapping (registry [plugin]).1
                   (registry [plugin]).2).1.2
                (_get_component_mapping (registry [plugin]).1
                   (registry [plugin]).2).2) as (_ & Hhit & _).
    apply Hhit. by_decide.
Defined.

(** A new wrapper: a call fails and the first [add_injector] succeeds; with
    a registry that is true the second [add_injector] fails, with one that
    is false it replaces the registry; the wrapper is still bound after more
    operations. *)
Lemma wrapper_state_machine_witness :
  let w := InjectableCheck_init check_cfg in
  let reg := registry [] in
  let ctx := mkContext bot None in
  call traits_mod w ctx reg.2
  = (Raise (RuntimeError
       "Cannot call an injectable check before the injector has been set"),
     w, reg.2)
  ∧ (add_injector w reg.1).1 = Ok ()
  ∧ add_injector (add_injector w reg.1).2 reg.1
    = (Raise (RuntimeError "Injector already set for this check"),
       (add_injector w reg.1).2)
  ∧ add_injector (add_injector w quiet_registry).2 reg.1
    = (Ok (), (add_injector w reg.1).2)
  ∧ Bound (run traits_mod [Invoke ctx; AttachRegistry reg.1; Invoke ctx]
             ((add_injector w reg.1).2, reg.2)).1.
Proof.
  pose proof (wrapper_state_machine traits_mod
                (InjectableCheck_init check_cfg) (registry []).1
                (registry []).1 (registry []).1 (mkContext bot None)
                (registry []).2
                [Invoke (mkContext bot None); AttachRegistry (registry []).1;
                 Invoke (mkContext bot None)])
    as (_ & _ & Hcall & Hattach & _).
  pose proof (wrapper_state_machine traits_mod
                (add_injector (InjectableCheck_init check_cfg)
                   (registry []).1).2
                (registry []).1 (registry []).1 (registry []).1
                (mkContext bot None) (registry []).2
                [Invoke (mkContext bot None); AttachRegistry (registry []).1;
                 Invoke (mkContext bot None)])
    as (Hagain & _ & _ & _ & Hstay).
  pose proof (wrapper_state_machine traits_mod
                (add_injector (InjectableCheck_init check_cfg)
                   quiet_registry).2
                quiet_registry (registry []).1 (registry []).1
                (mkContext bot None) (registry []).2 [])
    as (_ & Hreplace & _).
  split_and!.
  - apply Hcall. reflexivity.
  - apply Hattach. reflexivity.
  - apply Hagain; reflexivity.
  - apply Hreplace; reflexivity.
  - apply Hstay. eexists. reflexivity.
Defined.

(** * Further properties: the marker, the sentinel and the registry *)

(** X1: [Injected(callback=..., type=...)] succeeds exactly when one of the
    two is given, and the marker then holds what was given; with neither or
    with both it raises the [ValueError] of that case. *)
Theorem Injected_holds_exactly_one
    (callback : UndefinedOr PyObj) (type : UndefinedOr PyType) :
  match Injected callback type with
  | Ok marker =>
      attr_callback marker = Ok callback ∧ attr_type marker = Ok type
      ∧ ((∃ f, callback = Defined f) ∧ type = UNDEFINED
         ∨ callback = UNDEFINED ∧ ∃ t, type = Defined t)
  | Raise e =>
      callback = UNDEFINED ∧ type = UNDEFINED
      ∧ e = ValueError "Must specify one of `callback` or `type`"
      ∨ (∃ f t, callback = Defined f ∧ type = Defined t)
        ∧ e = ValueError "Only one of `callback` or `type` can be specified"
  end.
Proof.
  destruct callback as [|f], type as [|t]; simpl.
  - by left.
  - split_and!; [done | done |]. right. split; [done | by eexists].
  - split_and!; [done | done |]. left. split; [by eexists | done].
  - right. split; [by eexists _, _ | done].
Qed.

(** X2: every construction [Undefined()] returns the object that the first
    one returned, from any state of the class; after the first one the class
    no longer changes. *)
Theorem Undefined_is_singleton (n : nat) (cls : UndefinedClass) :
  let first := Undefined_new cls in
  Forall (λ o, o = first.1) (Undefined_news n cls).1
  ∧ (Undefined_news (S n) cls).2 = first.2
  ∧ Undefined_new first.2 = (first.1, first.2).
Proof.
  assert (∀ m i nx, Undefined_news m (mkUndefinedClass (Some i) nx)
                    = (replicate m i, mkUndefinedClass (Some i) nx)) as Hset.
  { induction m as [|m IH]; intros i nx; simpl; [done |]. by rewrite IH. }
  simpl. destruct cls as [[i|] nx]; unfold Undefined_new; simpl.
  - rewrite !Hset. simpl. split_and!; [| done | done].
    apply Forall_forall. by intros o [-> _]%elem_of_replicate.
  - rewrite Hset. split_and!; [| done | done].
    destruct n as [|n]; simpl; [by constructor |].
    rewrite Hset. simpl. constructor; [done |].
    apply Forall_forall. by intros o [-> _]%elem_of_replicate.
Qed.

(** X3: [get_type_dependency] after [add_type_dependency(t, v)] gives [v]
    for [t] and what it gave before for every other type; on a new registry
    it gives [UNDEFINED] for every type. *)
Theorem type_dependency_round_trip
    (self : InjectorClient) (t t' : PyType) (v : PyVal)
    (client : Client) (h : Heap) :
  get_type_dependency (add_type_dependency self t v) t'
    = (if decide (t' = t) then v else get_type_dependency self t')
  ∧ get_type_dependency (InjectorClient_init client h).1 t = VUndefined.
Proof.
  split; [| done].
  unfold get_type_dependency, add_type_dependency; simpl.
  case_decide as Ht.
  - subst. by rewrite lookup_insert_eq.
  - by rewrite lookup_insert_ne.
Qed.

(** X4: registering a type again replaces the earlier value, and
    registrations of different types commute. *)
Theorem add_type_dependency_overwrites
    (self : InjectorClient) (t t' : PyType) (v v' : PyVal) :
  add_type_dependency (add_type_dependency self t v) t v'
    = add_type_dependency self t v'
  ∧ (t ≠ t' →
     add_type_dependency (add_type_dependency self t v) t' v'
     = add_type_dependency (add_type_dependency self t' v') t v).
Proof.
  unfold add_type_dependency; simpl. split.
  - by rewrite insert_insert_eq.
  - intros Hne. f_equal. by apply insert_insert_ne.
Qed.

(** X5: [get_callable_override] after [add_callable_override(f, g)] gives
    [g] for [f] and what it gave before for every other callable; on a new
    registry it gives [None] for every callable. *)
Theorem callable_override_round_trip
    (self : InjectorClient) (f f' g : PyObj) (client : Client) (h : Heap) :
  get_callable_override (add_callable_override self f g) f'
    = (if decide (f' = f) then Some g else get_callable_override self f')
  ∧ get_callable_override (InjectorClient_init client h).1 f = None.
Proof.
  split; [| done].
  unfold get_callable_override, add_callable_override; simpl.
  case_decide as Hf.
  - subst. by rewrite lookup_insert_eq.
  - by rewrite lookup_insert_ne.
Qed.

(** X6: the getter of [_make_callback_getter(f)] returns, in every context
    and without changing the registry, the override of [f] once one is
    registered and [f] itself while none is; overrides are not followed: an
    override registered for [g] does not change what the getter of [f]
    returns. *)
Theorem callback_getter_resolves_override
    (self : InjectorClient) (f g k : PyObj) (ctx : Context) (h : Heap) :
  (let self1 := add_callable_override self f g in
   get (_make_callback_getter (Defined f)) ctx self1 h = (Ok (VObj g), self1, h))
  ∧ (get_callable_override self f = None →
     get (_make_callback_getter (Defined f)) ctx self h = (Ok (VObj f), self, h))
  ∧ (g ≠ f →
     let self2 :=
       add_callable_override (add_callable_override self f g) g k in
     get (_make_callback_getter (Defined f)) ctx self2 h
     = (Ok (VObj g), self2, h)).
Proof.
  unfold get, _make_callback_getter, get_callback, get_callable_override,
    add_callable_override; simpl.
  split_and!.
  - by rewrite lookup_insert_eq.
  - by intros ->.
  - intros Hne. rewrite lookup_insert_ne by done. by rewrite lookup_insert_eq.
Qed.

(** * Further properties: the component mapping and the getters *)

Lemma build_component_mapping_snoc (cs : list PyObj) (c : PyObj) :
  build_component_mapping (cs ++ [c])
  = <[otype c := c]> (build_component_mapping cs).
Proof. unfold build_component_mapping. by rewrite foldl_app. Qed.

(** X7: the mapping built from the host's components holds, for every
    class, the last component of exactly that class in iteration order, and
    nothing for a class of which there is none. *)
Theorem build_component_mapping_last (cs : list PyObj) (t : PyType) :
  build_component_mapping cs !! t = last (filter (λ c, otype c = t) cs).
Proof.
  induction cs as [|c cs IH] using rev_ind; [done |].
  rewrite build_component_mapping_snoc, filter_app, lookup_insert.
  case_decide as Ht.
  - rewrite filter_cons_True by done. rewrite filter_nil. by rewrite last_snoc.
  - rewrite filter_cons_False by done. rewrite filter_nil, app_nil_r. apply IH.
Qed.

Lemma build_component_mapping_sound (cs : list PyObj) (t : PyType) (c : PyObj) :
  build_component_mapping cs !! t = Some c → c ∈ cs ∧ otype c = t.
Proof.
  rewrite build_component_mapping_last. intros Hl.
  apply last_Some_elem_of in Hl. by apply list_elem_of_filter in Hl as [? ?].
Qed.

Lemma build_component_mapping_complete (cs : list PyObj) (c : PyObj) :
  c ∈ cs → is_Some (build_component_mapping cs !! otype c).
Proof.
  intros Hc. rewrite build_component_mapping_last.
  apply last_is_Some. intros Hnil.
  assert (c ∈ filter (λ c', otype c' = otype c) cs) as Hin
    by by apply list_elem_of_filter.
  rewrite Hnil in Hin. by apply not_elem_of_nil in Hin.
Qed.

(** X8: when the host's set differs from the snapshot, the call empties the
    dict object it handed out before, returns a new dict object, and leaves
    every other dict object as it was. *)
Theorem rebuild_clears_old_mapping (self : InjectorClient) (h : Heap) :
  _component_mapping_values self ≠ list_to_set (components (_client self)) →
  _component_mapping self < length h →
  let r := _get_component_mapping self h in
  r.1.1 ≠ _component_mapping self
  ∧ r.2 !! _component_mapping self = Some ∅
  ∧ length r.2 = S (length h)
  ∧ ∀ i, i ≠ _component_mapping self → i < length h → r.2 !! i = h !! i.
Proof.
  intros Hne Hlt. simpl. rewrite (get_component_mapping_miss self h Hne).
  simpl. split_and!.
  - lia.
  - rewrite lookup_app_l by (rewrite length_insert; lia).
    by apply list_lookup_insert_eq.
  - rewrite length_app, length_insert. simpl. lia.
  - intros i Hi Hil.
    rewrite lookup_app_l by (rewrite length_insert; lia).
    by apply list_lookup_insert_ne.
Qed.

Lemma get_component_mapping_consistent (self : InjectorClient) (h : Heap) :
  cache_consistent self h →
  let r := _get_component_mapping self h in
  ∃ cs, (list_to_set cs : gset PyObj) = list_to_set (components (_client self))
        ∧ _component_mapping_values r.1.2 = list_to_set cs
        ∧ _component_mapping r.1.2 = r.1.1
        ∧ r.2 !! r.1.1 = Some (build_component_mapping cs).
Proof.
  intros (cs & Hsnap & Hmap). simpl.
  destruct (decide (_component_mapping_values self
                    = list_to_set (components (_client self)))) as [Heq|Hne].
  - rewrite (get_component_mapping_hit self h Heq). simpl.
    exists cs. split_and!; [congruence | done | done | done].
  - rewrite (get_component_mapping_miss self h Hne). simpl.
    exists (components (_client self)). split_and!; [done | done | done |].
    rewrite lookup_app_r; rewrite length_insert; [| lia].
    by rewrite Nat.sub_diag.
Qed.

Lemma get_consistent (g : Getter) (ctx : Context)
    (self : InjectorClient) (h : Heap) :
  cache_consistent self h →
  cache_consistent (get g ctx self h).1.2 (get g ctx self h).2.
Proof.
  intros Hc. destruct g as [cb|t dc tc]; simpl; [done |].
  unfold get_type.
  destruct (_type_dependencies self !! t); [done |].
  destruct dc; [done |]. destruct tc; [| done].
  destruct (get_component_mapping_consistent self h Hc)
    as (cs & _ & Hs & Hm & Hl).
  destruct (_get_component_mapping self h) as [[m s1] h1]. simpl in *.
  assert (cache_consistent s1 h1) as Hc1.
  { exists cs. by rewrite Hm. }
  destruct (if_true (dict_get h1 m t)); [done |].
  by destruct (if_true (component ctx)).
Qed.

(** X9: from a new registry, after any sequence of registrations, changes
    of the host's component set, mapping lookups and getter calls, the
    stored mapping is the one built from a listing of the stored
    snapshot. *)
Theorem registry_cache_consistent
    (client : Client) (h0 : Heap) (ops : list RegistryOp) :
  let st := registry_run ops (InjectorClient_init client h0) in
  cache_consistent st.1 st.2.
Proof.
  simpl. unfold registry_run.
  assert (cache_consistent (InjectorClient_init client h0).1
            (InjectorClient_init client h0).2) as Hinit.
  { exists []. simpl. split; [done |].
    rewrite lookup_app_r by lia. by rewrite Nat.sub_diag. }
  revert Hinit. generalize (InjectorClient_init client h0).
  induction ops as [|op ops IH]; intros st Hc; simpl; [done |].
  apply IH. destruct op as [t v|f g|cs| |g ctx]; simpl; try done.
  - destruct (get_component_mapping_consistent st.1 st.2 Hc)
      as (cs & _ & Hs & Hm & Hl).
    destruct (_get_component_mapping st.1 st.2) as [[m s1] h1]. simpl in *.
    exists cs. by rewrite Hm.
  - pose proof (get_consistent g ctx st.1 st.2 Hc) as Hg.
    by destruct (get g ctx st.1 st.2) as [[r s1] h1].
Qed.

(** X10: on a registry whose cache is consistent, the mapping returned by
    [_get_component_mapping] has no stale and no missing entry: every value
    is a component of the host's current set, filed under its own class, and
    the class of every current component has an entry. *)
Theorem component_mapping_reflects_host (self : InjectorClient) (h : Heap) :
  cache_consistent self h →
  let r := _get_component_mapping self h in
  (∀ t c, dict_get r.2 r.1.1 t = Some c →
          c ∈ components (_client self) ∧ otype c = t)
  ∧ (∀ c, c ∈ components (_client self) →
          is_Some (dict_get r.2 r.1.1 (otype c))).
Proof.
  intros Hc.
  destruct (get_component_mapping_consistent self h Hc)
    as (cs & Hset & _ & _ & Hl).
  simpl. unfold dict_get. rewrite Hl. simpl.
  assert (∀ c, c ∈ cs ↔ c ∈ components (_client self)) as Hmem.
  { intros c. rewrite <-(elem_of_list_to_set (C := gset PyObj) c cs), Hset.
    apply elem_of_list_to_set. }
  split.
  - intros t c [Hin Ht]%build_component_mapping_sound. by rewrite <-Hmem.
  - intros c Hin%Hmem. by apply build_component_mapping_complete.
Qed.

(** X11: calling a getter changes nothing that was registered: the type
    dependencies, the callable overrides and the client are as before, and
    no dict object is removed from the heap. *)
Theorem get_keeps_registrations
    (g : Getter) (ctx : Context) (self : InjectorClient) (h : Heap) :
  let r := get g ctx self h in
  _type_dependencies r.1.2 = _type_dependencies self
  ∧ _callback_overrides r.1.2 = _callback_overrides self
  ∧ _client r.1.2 = _client self
  ∧ length h ≤ length r.2.
Proof.
  assert (let r := _get_component_mapping self h in
          _type_dependencies r.1.2 = _type_dependencies self
          ∧ _callback_overrides r.1.2 = _callback_overrides self
          ∧ _client r.1.2 = _client self
          ∧ length h ≤ length r.2) as Hgcm.
  { simpl. unfold _get_component_mapping. case_bool_decide; simpl; [| done].
    split_and!; [done | done | done |].
    rewrite length_app, length_insert. lia. }
  simpl in *. destruct g as [cb|t dc tc]; simpl; [done |].
  unfold get_type.
  destruct (_type_dependencies self !! t); [done |].
  destruct dc; [done |]. destruct tc; [| done].
  destruct (_get_component_mapping self h) as [[m s1] h1]. simpl in *.
  destruct (if_true (dict_get h1 m t)); [done |].
  by destruct (if_true (component ctx)).
Qed.

(** X12: calling the same getter on the same context a second time gives
    the outcome of the first call, be it a value or the error, and changes
    neither the registry nor the heap. *)
Theorem get_twice (g : Getter) (ctx : Context) (self : InjectorClient) (h : Heap) :
  let r := get g ctx self h in
  get g ctx r.1.2 r.2 = r.
Proof.
  simpl. destruct g as [cb|t dc tc]; simpl; [done |].
  unfold get_type.
  destruct (_type_dependencies self !! t) as [v|] eqn:Hdep; simpl.
  { by rewrite Hdep. }
  destruct dc; simpl; [by rewrite Hdep |].
  destruct tc; simpl; [| by rewrite Hdep].
  pose proof (get_component_mapping_snapshot self h) as Hsnap.
  pose proof (get_keeps_registrations (TypeGetter t false true) ctx self h)
    as Hkeep.
  simpl in Hsnap, Hkeep. unfold get_type in Hkeep. rewrite Hdep in Hkeep.
  assert (_component_mapping (_get_component_mapping self h).1.2
          = (_get_component_mapping self h).1.1) as Hm.
  { unfold _get_component_mapping. by case_bool_decide. }
  destruct (_get_component_mapping self h) as [[m s1] h1]. simpl in *.
  assert (_type_dependencies s1 !! t = None) as Hdep1.
  { destruct (if_true (dict_get h1 m t));
      [| destruct (if_true (component ctx))];
      simpl in Hkeep; destruct Hkeep as (-> & _); done. }
  assert (_get_component_mapping s1 h1 = (m, s1, h1)) as Hhit.
  { rewrite (get_component_mapping_hit s1 h1 Hsnap). by rewrite Hm. }
  destruct (if_true (dict_get h1 m t)) eqn:Hd; simpl.
  - by rewrite Hdep1, Hhit, Hd.
  - destruct (if_true (component ctx)); simpl; by rewrite Hdep1, Hhit, Hd.
Qed.

(** * Further properties: the resolver and the wrapper *)

Section MoreFacts.

Variable traits_module : TraitsModule.

Lemma finish_call_is_async (self : InjectableCheck) (result : PyVal) (b : bool) :
  is_async self = Some b → is_async (finish_call self result).2 = Some b.
Proof.
  intros Hb. unfold finish_call. rewrite Hb. simpl.
  destruct b; [by destruct result | by destruct (is_bool result)].
Qed.

Lemma finish_call_callback (self : InjectableCheck) (result : PyVal) :
  callback (finish_call self result).2 = callback self.
Proof.
  unfold finish_call.
  destruct (default (is_awaitable result) (is_async self));
    [by destruct result | by destruct (is_bool result)].
Qed.

Lemma call_keeps_is_async
    (self : InjectableCheck) (ctx : Context) (h : Heap) (b : bool) :
  is_async self = Some b →
  is_async (call traits_module self ctx h).1.2 = Some b
  ∧ callback (call traits_module self ctx h).1.2
    = callback self.
Proof.
  intros Hb. unfold call.
  destruct (injector self) as [inj|]; [| done].
  destruct (_cached_getters self) as [|cached]; [done |].
  destruct (match cached with
            | None => _
            | Some getters => Ok getters
            end) as [getters|e]; [| done].
  destruct (call_getters getters ctx inj h) as [[r inj1] h1].
  destruct r as [values|e]; [| done].
  destruct (invoke _ _ _) as [result|e]; [| done].
  pose proof (finish_call_is_async
    {| callback := callback self;
       _cached_getters := Assigned (Some getters);
       injector := Some inj1;
       is_async := is_async self |} result b Hb) as Hf.
  pose proof (finish_call_callback
    {| callback := callback self;
       _cached_getters := Assigned (Some getters);
       injector := Some inj1;
       is_async := is_async self |} result) as Hc.
  by destruct (finish_call _ result) as [out self2].
Qed.

(** X14: once [is_async] is decided it is never changed: after any
    sequence of [add_injector] and [__call__] it has the value it had, and
    the wrapped callback is the one the wrapper was built with. *)
Theorem is_async_sticky
    (ops : list Op) (st : InjectableCheck * Heap) (b : bool) :
  is_async st.1 = Some b →
  is_async (run traits_module ops st).1 = Some b
  ∧ callback (run traits_module ops st).1 = callback st.1.
Proof.
  unfold run. revert st. induction ops as [|op ops IH]; intros st Hb; simpl.
  - done.
  - assert (is_async (step traits_module st op).1 = Some b
            ∧ callback (step traits_module st op).1
              = callback st.1) as [Hb' Hc'].
    { destruct op as [client|ctx]; simpl.
      - unfold add_injector. by destruct (injector_bool st.1).
      - pose proof (call_keeps_is_async st.1 ctx st.2 b Hb) as Hk.
        by destruct (call _ st.1 ctx st.2) as [[r self] h]. }
    destruct (IH _ Hb') as [H1 H2]. split; [done | congruence].
Qed.

(** X15: when a call returns a value and leaves the wrapper marked as not
    asynchronous, that value is a [bool]. *)
Theorem sync_check_returns_bool
    (self : InjectableCheck) (ctx : Context) (h : Heap) (v : PyVal) :
  (call traits_module self ctx h).1.1 = Ok v →
  is_async (call traits_module self ctx h).1.2 = Some false →
  ∃ b, v = VBool b.
Proof.
  unfold call.
  destruct (injector self) as [inj|]; [| done].
  destruct (_cached_getters self) as [|cached]; [done |].
  destruct (match cached with
            | None => _
            | Some getters => Ok getters
            end) as [getters|e]; [| done].
  destruct (call_getters getters ctx inj h) as [[r inj1] h1].
  destruct r as [values|e]; [| done].
  destruct (invoke _ _ _) as [result|e]; [| done].
  unfold finish_call; simpl.
  destruct (default (is_awaitable result) (is_async self)).
  - by destruct result.
  - destruct result; simpl; try done. intros [= <-] _. by eexists.
Qed.

(** X16: on the asynchronous path the awaited value is returned as it is,
    without the [bool] check: with the getters cached (here none) and
    [is_async] not yet decided or true, a callback that returns an awaitable
    of [v] makes the call return [v], whatever [v] is. *)
Theorem awaited_result_is_not_checked
    (self : InjectableCheck) (inj : InjectorClient) (ctx : Context)
    (h : Heap) (v : PyVal) :
  injector self = Some inj →
  _cached_getters self = Assigned (Some []) →
  is_async self ≠ Some false →
  invoke (callback self) [] [] = Ok (VAwaitable v) →
  (call traits_module self ctx h).1.1 = Ok v
  ∧ is_async (call traits_module self ctx h).1.2 = Some true.
Proof.
  intros Hinj Hc Hflag Hinv. unfold call. rewrite Hinj, Hc. simpl.
  rewrite Hinv. unfold finish_call; simpl.
  destruct (is_async self) as [[|]|]; simpl; done.
Qed.

(** X17: [__call__] hands the wrapped callback nothing but the names of the
    cached getters, as positional strings: two callbacks with the same
    signature that agree on every call with strings and no keyword give, in
    wrappers otherwise equal, the same outcome, heap and wrapper fields.
    Neither the context nor a resolved value reaches the callback. *)
Theorem call_passes_only_names
    (cb1 cb2 : Callback) (cached : Slot (option Getters))
    (inj : option InjectorClient) (flag : option bool)
    (ctx : Context) (h : Heap) :
  signature cb1 = signature cb2 →
  (∀ names : list string,
     invoke cb1 (VStr <$> names) [] = invoke cb2 (VStr <$> names) []) →
  let r1 := call traits_module
              (mkInjectableCheck cb1 cached inj flag) ctx h in
  let r2 := call traits_module
              (mkInjectableCheck cb2 cached inj flag) ctx h in
  r1.1.1 = r2.1.1 ∧ r1.2 = r2.2
  ∧ _cached_getters r1.1.2 = _cached_getters r2.1.2
  ∧ injector r1.1.2 = injector r2.1.2
  ∧ is_async r1.1.2 = is_async r2.1.2.
Proof.
  intros Hsig Hinv. unfold call; simpl.
  destruct inj as [inj|]; [| done].
  destruct cached as [|cached]; [done |]. rewrite Hsig.
  destruct (match cached with
            | None => _
            | Some getters => Ok getters
            end) as [getters|e]; [| done].
  destruct (call_getters getters ctx inj h) as [[r inj1] h1].
  destruct r as [values|e]; [| done].
  rewrite Hinv.
  destruct (invoke cb2 _ _) as [result|e]; [| done].
  unfold finish_call; simpl.
  destruct (default (is_awaitable result) flag);
    [by destruct result | by destruct (is_bool result)].
Qed.

End MoreFacts.

(** X18: when every cached getter resolves, the resolved mapping has the
    names of the getters, in their order. *)
Theorem call_getters_keys
    (getters : Getters) (ctx : Context) (inj : InjectorClient) (h : Heap)
    (values : list (string * PyVal)) :
  (call_getters getters ctx inj h).1.1 = Ok values →
  values.*1 = getters.*1.
Proof.
  revert inj h values.
  induction getters as [|[name g] rest IH]; intros inj h values; simpl.
  - by intros [= <-].
  - destruct (get g ctx inj h) as [[r inj1] h1].
    destruct r as [v|e]; [| done].
    specialize (IH inj1 h1).
    destruct (call_getters rest ctx inj1 h1) as [[rs inj2] h2]. simpl in *.
    destruct rs as [vs|e]; simpl; [| done].
    intros [= <-]. simpl. f_equal. by apply IH.
Qed.

Lemma if_true_Some (o : option PyObj) (c : PyObj) :
  if_true o = Some c → o = Some c ∧ otruthy c = true.
Proof.
  unfold if_true. destruct o as [x|]; [| done].
  destruct (otruthy x) eqn:Hx; [| done]. by intros [= <-].
Qed.

(** X19: on a registry whose cache is consistent, a value returned by a type
    getter for [t] is the registered dependency of [t], or the context's
    client, or a true object that is either a component of the host's
    current set of exactly the class [t] or the context's current
    component; nothing else is ever returned. *)
Theorem type_getter_result_sources
    (t : PyType) (dc tc : bool) (ctx : Context) (self : InjectorClient)
    (h : Heap) (v : PyVal) :
  cache_consistent self h →
  (get (TypeGetter t dc tc) ctx self h).1.1 = Ok v →
  _type_dependencies self !! t = Some v
  ∨ v = VObj (client ctx)
  ∨ ∃ c, v = VObj c ∧ otruthy c = true
         ∧ (c ∈ components (_client self) ∧ otype c = t
            ∨ component ctx = Some c).
Proof.
  intros Hc. simpl. unfold get_type.
  destruct (_type_dependencies self !! t) as [d|]; simpl.
  { intros [= ->]. by left. }
  destruct dc; simpl.
  { intros [= <-]. right. by left. }
  destruct tc; simpl; [| done].
  destruct (get_component_mapping_consistent self h Hc)
    as (cs & Hset & _ & _ & Hl).
  destruct (_get_component_mapping self h) as [[m s1] h1]. simpl in *.
  destruct (if_true (dict_get h1 m t)) as [c|] eqn:Hd; simpl.
  - intros [= <-]. right. right. exists c.
    apply if_true_Some in Hd as [Hd Htrue].
    unfold dict_get in Hd. rewrite Hl in Hd. simpl in Hd.
    apply build_component_mapping_sound in Hd as [Hin Ht].
    split_and!; [done | done |]. left. split; [| done].
    rewrite <-(elem_of_list_to_set (C := gset PyObj)), <-Hset.
    by apply elem_of_list_to_set.
  - destruct (if_true (component ctx)) as [d|] eqn:Hcur; simpl; [| done].
    intros [= <-]. right. right. exists d.
    apply if_true_Some in Hcur as [Hcur Htrue]. by split_and!; [| | right].
Qed.

(** A host with one component, asked for that component's class. *)
Lemma type_getter_result_sources_witness :
  (get (closure_of Plugin) (mkContext bot None)
     (registry [plugin]).1 (registry [plugin]).2).1.1 = Ok (VObj plugin)
  ∧ (_type_dependencies (registry [plugin]).1 !! Plugin = Some (VObj plugin)
     ∨ VObj plugin = VObj bot
     ∨ ∃ c, VObj plugin = VObj c ∧ otruthy c = true
            ∧ (c ∈ [plugin] ∧ otype c = Plugin ∨ None = Some c)).
Proof.
  assert ((get (closure_of Plugin) (mkContext bot None)
             (registry [plugin]).1 (registry [plugin]).2).1.1
          = Ok (VObj plugin)) as Hrun by (vm_compute; reflexivity).
  split; [exact Hrun |].
  apply (type_getter_result_sources Plugin
           (issubclass Plugin Client_cls) (issubclass Plugin Component_cls)
           (mkContext bot None) (registry [plugin]).1 (registry [plugin]).2
           (VObj plugin)).
  - exists []. split; reflexivity.
  - exact Hrun.
Defined.

(** * Concrete runs of the further properties *)

Import Callables.

(** Two unrelated classes registered in either order. *)
Lemma add_type_dependency_overwrites_witness :
  add_type_dependency
    (add_type_dependency (registry []).1 Config (VObj cfg1)) Bot (VObj bot)
  = add_type_dependency
      (add_type_dependency (registry []).1 Bot (VObj bot)) Config (VObj cfg1).
Proof.
  apply (add_type_dependency_overwrites (registry []).1 Config Bot
           (VObj cfg1) (VObj bot)).
  intros Heq. discriminate Heq.
Defined.

(** [load_config] without override, then overridden by [fake_config], which
    is itself overridden by [stub_config]. *)
Lemma callback_getter_resolves_override_witness :
  get (_make_callback_getter (Defined load_config)) (mkContext bot None)
    (registry []).1 (registry []).2
  = (Ok (VObj load_config), (registry []).1, (registry []).2)
  ∧ (get (_make_callback_getter (Defined load_config)) (mkContext bot None)
       (add_callable_override
          (add_callable_override (registry []).1 load_config fake_config)
          fake_config stub_config)
       (registry []).2).1.1
    = Ok (VObj fake_config).
Proof.
  destruct (callback_getter_resolves_override (registry []).1 load_config
              fake_config stub_config (mkContext bot None) (registry []).2)
    as (_ & Hnone & Hchain).
  split.
  - apply Hnone. reflexivity.
  - cbv zeta in Hchain. rewrite Hchain; [reflexivity |].
    intros Heq. discriminate Heq.
Defined.

(** A new registry on a host with one component: the first call rebuilds,
    empties the initial dict object and returns another one. *)
Lemma rebuild_clears_old_mapping_witness :
  let reg := registry [plugin] in
  let r := _get_component_mapping reg.1 reg.2 in
  r.1.1 ≠ 0 ∧ r.2 !! 0 = Some ∅ ∧ length r.2 = 2.
Proof.
  destruct (rebuild_clears_old_mapping (registry [plugin]).1
              (registry [plugin]).2) as (H1 & H2 & H3 & _).
  - by_decide.
  - simpl. lia.
  - split_and!; [exact H1 | exact H2 | exact H3].
Defined.

(** The same registry: its cache is consistent, and after the call the
    class of [plugin] has an entry. *)
Lemma component_mapping_reflects_host_witness :
  let reg := registry [plugin] in
  let r := _get_component_mapping reg.1 reg.2 in
  is_Some (dict_get r.2 r.1.1 Plugin).
Proof.
  destruct (component_mapping_reflects_host (registry [plugin]).1
              (registry [plugin]).2) as (_ & Hall).
  - exists []. split; reflexivity.
  - apply (Hall plugin). apply list_elem_of_here.
Defined.

(** The coroutine function [answer] with its (empty) getters cached: the
    first call awaits the result and decides that the wrapper is
    asynchronous; two more calls, which again run to the end, leave it
    so. *)
Lemma is_async_sticky_witness :
  let w := mkInjectableCheck answer (Assigned (Some []))
             (Some (registry []).1) None in
  let ctx := mkContext bot None in
  let r := call traits_mod w ctx (registry []).2 in
  r.1.1 = Ok (VStr "yes")
  ∧ is_async r.1.2 = Some true
  ∧ (call traits_mod r.1.2 ctx r.2).1.1 = Ok (VStr "yes")
  ∧ is_async (run traits_mod [Invoke ctx; Invoke ctx] (r.1.2, r.2)).1
    = Some true.
Proof.
  cbv zeta. split_and!; [reflexivity | reflexivity | reflexivity |].
  apply (is_async_sticky traits_mod
           [Invoke (mkContext bot None); Invoke (mkContext bot None)]
           ((call traits_mod
               (mkInjectableCheck answer (Assigned (Some []))
                  (Some (registry []).1) None)
               (mkContext bot None) (registry []).2).1.2,
            (call traits_mod
               (mkInjectableCheck answer (Assigned (Some []))
                  (Some (registry []).1) None)
               (mkContext bot None) (registry []).2).2)
           true).
  reflexivity.
Defined.

(** The check [always], with its (empty) getters cached, returns a
    [bool]. *)
Lemma sync_check_returns_bool_witness :
  ∃ b,
    (call traits_mod
       (mkInjectableCheck always (Assigned (Some []))
          (Some (registry []).1) None)
       (mkContext bot None) (registry []).2).1.1 = Ok (VBool b).
Proof.
  destruct (sync_check_returns_bool traits_mod
              (mkInjectableCheck always (Assigned (Some []))
                 (Some (registry []).1) None)
              (mkContext bot None) (registry []).2 (VBool true))
    as [b Hb]; [reflexivity | reflexivity |].
  exists b. rewrite <-Hb. reflexivity.
Defined.

(** The coroutine function [answer] makes the call return a string. *)
Lemma awaited_result_is_not_checked_witness :
  (call traits_mod
     (mkInjectableCheck answer (Assigned (Some [])) (Some (registry []).1) None)
     (mkContext bot None) (registry []).2).1.1 = Ok (VStr "yes").
Proof.
  apply (awaited_result_is_not_checked traits_mod
           (mkInjectableCheck answer (Assigned (Some []))
              (Some (registry []).1) None)
           (registry []).1 (mkContext bot None) (registry []).2 (VStr "yes"));
    [reflexivity | reflexivity | discriminate | reflexivity].
Defined.

(** [check_cfg] and [check_kw] differ only on calls with a keyword: wrapped,
    they give the same outcome. *)
Lemma call_passes_only_names_witness :
  let getters := [("cfg", closure_of Config)] in
  let inj := add_type_dependency (registry []).1 Config (VObj cfg1) in
  (call traits_mod
     (mkInjectableCheck check_cfg (Assigned (Some getters)) (Some inj) None)
     (mkContext bot None) (registry []).2).1.1
  = (call traits_mod
       (mkInjectableCheck check_kw (Assigned (Some getters)) (Some inj) None)
       (mkContext bot None) (registry []).2).1.1.
Proof.
  apply (call_passes_only_names traits_mod check_cfg check_kw).
  - reflexivity.
  - intros names. reflexivity.
Defined.

(** One getter, for the registered class [Config]. *)
Lemma call_getters_keys_witness :
  let getters := [("cfg", closure_of Config)] in
  let inj := add_type_dependency (registry []).1 Config (VObj cfg1) in
  (call_getters getters (mkContext bot None) inj (registry []).2).1.1
    = Ok [("cfg", VObj cfg1)]
  ∧ [("cfg", VObj cfg1)].*1 = getters.*1.
Proof.
  cbv zeta.
  assert ((call_getters [("cfg", closure_of Config)] (mkContext bot None)
             (add_type_dependency (registry []).1 Config (VObj cfg1))
             (registry []).2).1.1 = Ok [("cfg", VObj cfg1)]) as Hrun
    by (vm_compute; reflexivity).
  split; [exact Hrun |].
  exact (call_getters_keys _ _ _ _ _ Hrun).
Defined.
